(** * contractUtils: NFT contract heuristics over an ethers provider

    A shallow embedding of [src/utils/contractUtils.ts]: the three exported
    functions [validateNFTContract], [getNFTContractInfo] and
    [detectMintFunction], written in a small state-and-exception monad.

    The state records what the outside world can observe of a run: the
    calls issued to the provider, in order, and the lines written with
    [console.error].  The provider is an oracle: what it answers to a call
    may depend on every call issued before it.

    The functions are embedded twice.  The first embedding is the settled
    model: every promise of the provider is fulfilled or rejected and
    every thrown value can be printed.  The second, [Open], drops both
    assumptions, so that a run may also never complete; it agrees with
    the first on the providers of the first. *)

From Stdlib Require Import String Ascii List ZArith NArith Bool Lia.
Import ListNotations.
Open Scope string_scope.

(** ** JavaScript string primitives used by the source *)

Module JsString.

(** [s.includes(pat)] *)
Fixpoint includes (s pat : string) : bool :=
  if String.prefix pat s then true
  else match s with
       | EmptyString => false
       | String _ s' => includes s' pat
       end.

(** [s.split(sep)] for a separator of one character. *)
Fixpoint split (s : string) (sep : ascii) : list string :=
  match s with
  | EmptyString => [EmptyString]
  | String c s' =>
      if Ascii.eqb c sep then EmptyString :: split s' sep
      else match split s' sep with
           | [] => [String c EmptyString]
           | piece :: pieces => String c piece :: pieces
           end
  end.

(** [arr[0]] on the array a split returns (it is never empty). *)
Definition first (pieces : list string) : string := hd EmptyString pieces.

Fixpoint drop (n : nat) (s : string) : string :=
  match n, s with
  | O, _ => s
  | S _, EmptyString => EmptyString
  | S n', String _ s' => drop n' s'
  end.

(** [s.replace(pat, rep)] with a string pattern: the first occurrence
    only.  ([rep] holds no [$] pattern in the source: it is empty.) *)
Fixpoint replace (s pat rep : string) : string :=
  if String.prefix pat s then rep ++ drop (String.length pat) s
  else match s with
       | EmptyString => EmptyString
       | String c s' => String c (replace s' pat rep)
       end.

End JsString.

(** ** Values thrown, completions and promises *)

(** A thrown JavaScript value, as far as a handler of the source looks at
    it: [error instanceof Error ? error.message : String(error)]. *)
Inductive thrown : Type :=
| ErrorObj (message : string)
| NonError (shown : string).

Definition error_text (error : thrown) : string :=
  match error with
  | ErrorObj message => message
  | NonError shown => shown
  end.

(** How a piece of code completes: normally with a value, or abruptly
    with a thrown value. *)
Inductive completion (A : Type) : Type :=
| Normal (a : A)
| Abrupt (e : thrown).
Arguments Normal {A} a.
Arguments Abrupt {A} e.

Inductive settled (A : Type) : Type :=
| Fulfilled (value : A)
| Rejected (why : thrown).
Arguments Fulfilled {A} value.
Arguments Rejected {A} why.

(** A promise that settles: when (milliseconds after it was created) and
    how.  The time is only looked at by [Promise.race]. *)
Record Promise (A : Type) : Type := mkPromise {
  settles_after : N;
  outcome : settled A
}.
Arguments mkPromise {A} _ _.
Arguments settles_after {A} _.
Arguments outcome {A} _.

Module JsPromise.

(** [p.then(f)] *)
Definition then_ {A B} (p : Promise A) (f : A -> B) : Promise B :=
  mkPromise (settles_after p)
    match outcome p with
    | Fulfilled v => Fulfilled (f v)
    | Rejected e => Rejected e
    end.

(** [p.catch(f)] *)
Definition catch_ {A} (p : Promise A) (f : thrown -> A) : Promise A :=
  mkPromise (settles_after p)
    match outcome p with
    | Fulfilled v => Fulfilled v
    | Rejected e => Fulfilled (f e)
    end.

(** [new Promise((_, reject) => setTimeout(() => reject(e), ms))] *)
Definition reject_after {A} (ms : N) (e : thrown) : Promise A :=
  mkPromise ms (Rejected e).

(** [Promise.race([p, q])]: whichever settles first; [p] on a tie. *)
Definition race {A} (p q : Promise A) : Promise A :=
  if (settles_after p <=? settles_after q)%N then p else q.

(** [Promise.allSettled([p, q, r])]: never rejects. *)
Definition allSettled3 {A B C} (p : Promise A) (q : Promise B) (r : Promise C)
  : Promise (settled A * settled B * settled C) :=
  mkPromise (N.max (settles_after p) (N.max (settles_after q) (settles_after r)))
    (Fulfilled (outcome p, outcome q, outcome r)).

(** [result.status === 'fulfilled' ? result.value : undefined] *)
Definition value_or_undefined {A} (result : settled A) : option A :=
  match result with
  | Fulfilled v => Some v
  | Rejected _ => None
  end.

End JsPromise.

(** ** The part of ethers the source relies on *)

Module Ethers.

Record FunctionFragment : Type := {
  fname : string;
  inputs : list string
}.

Definition Interface : Type := list FunctionFragment.

(** Characters of an identifier: letters, digits, [_] and [$]. *)
Definition is_ident_char (c : ascii) : bool :=
  let n := nat_of_ascii c in
  ((48 <=? n) && (n <=? 57) || (65 <=? n) && (n <=? 90)
   || (97 <=? n) && (n <=? 122) || (n =? 95) || (n =? 36))%nat.

Definition is_hex_char (c : ascii) : bool :=
  let n := nat_of_ascii c in
  ((48 <=? n) && (n <=? 57) || (65 <=? n) && (n <=? 70)
   || (97 <=? n) && (n <=? 102))%nat.

Fixpoint all_chars (ok : ascii -> bool) (s : string) : bool :=
  match s with
  | EmptyString => true
  | String c s' => ok c && all_chars ok s'
  end.

Fixpoint take_while (ok : ascii -> bool) (s : string) : string :=
  match s with
  | EmptyString => EmptyString
  | String c s' => if ok c then String c (take_while ok s') else EmptyString
  end.

Fixpoint drop_while (ok : ascii -> bool) (s : string) : string :=
  match s with
  | EmptyString => EmptyString
  | String c s' => if ok c then drop_while ok s' else s
  end.

Definition is_space (c : ascii) : bool := Ascii.eqb c " ".

(** [isHexString(value)]: [0x] followed by hexadecimal digits. *)
Definition isHexString (value : string) : bool :=
  String.prefix "0x" value && all_chars is_hex_char (JsString.drop 2 value).

(** A human-readable ABI line ["function NAME(T1,T2) ..."]: after the
    keyword, an identifier, then a parenthesised list of inputs; blanks
    may stand around the name.  A line without a name or without the
    closing parenthesis is not a fragment.  The types and what follows
    the list (modifiers, outputs) are not examined: the model is meant
    for lines whose types are valid, as the ones of the source are. *)
Definition parseFunction (signature : string) : option FunctionFragment :=
  if String.prefix "function " signature then
    let body := drop_while is_space (JsString.drop 9 signature) in
    match take_while is_ident_char body,
          drop_while is_space (drop_while is_ident_char body) with
    | String c name, String "("%char args =>
        match JsString.split args ")" with
        | params :: _ :: _ =>
            Some {| fname := String c name;
                    inputs := match params with
                              | EmptyString => []
                              | _ => JsString.split params ","
                              end |}
        | _ => None
        end
    | _, _ => None
    end
  else None.

(** [Interface.from(abi)]: a line that is not a fragment is left out
    (ethers prints a warning and goes on). *)
Fixpoint Interface_from (abi : list string) : Interface :=
  match abi with
  | [] => []
  | line :: rest =>
      match parseFunction line with
      | Some f => f :: Interface_from rest
      | None => Interface_from rest
      end
  end.

(** [iface.getFunction(key)] for a bare name (no parenthesis in [key]):
    the fragments of that name; none gives [null], several are
    ambiguous and throw. *)
Definition getFunction (iface : Interface) (key : string)
  : completion (option FunctionFragment) :=
  match filter (fun f => String.eqb (fname f) key) iface with
  | [] => Normal None
  | [f] => Normal (Some f)
  | _ :: _ :: _ =>
      Abrupt (ErrorObj ("ambiguous function description: " ++ key))
  end.

Record Contract : Type := {
  target : string;
  interface : Interface
}.

End Ethers.
Import Ethers.

(** ** The provider and the calls it sees *)

Inductive call : Type :=
| GetCode (address : string)
| NewContract (address : string) (abi : list string)
| SupportsInterface (address : string) (interfaceId : string)
| BalanceOf (address : string) (owner : string)
| OwnerOf (address : string) (tokenId : Z)
| Name (address : string)
| Symbol (address : string)
| TotalSupply (address : string).

(** What a provider does: every answer is a function of the calls issued
    so far and of the call's arguments.  Every promise it hands out
    settles; a [getCode] that throws on the spot counts as a rejected
    promise, since both of its call sites stand in a [try] block that
    treats the two alike.  [bind_failure] is what
    [new ethers.Contract(address, abi, provider)] throws while it resolves
    its target through the provider, if it throws; ethers does so only
    for a target that is not a [0x] hexadecimal string (such a target is
    taken for a name to resolve). *)
Record Provider : Type := {
  getCode : list call -> string -> Promise string;
  bind_failure : list call -> string -> list string -> option thrown;
  supportsInterface : list call -> string -> string -> Promise bool;
  balanceOf : list call -> string -> string -> Promise Z;
  ownerOf : list call -> string -> Z -> Promise string;
  name_ : list call -> string -> Promise string;
  symbol_ : list call -> string -> Promise string;
  totalSupply_ : list call -> string -> Promise Z
}.

Record World : Type := {
  calls : list call;
  console : list (string * thrown)
}.

Definition issued (c : call) (w : World) : World :=
  {| calls := calls w ++ [c]; console := console w |}.

Definition logged (line : string) (e : thrown) (w : World) : World :=
  {| calls := calls w; console := console w ++ [(line, e)] |}.

(** ** The monad: world passing with exceptions *)

Definition M (A : Type) : Type := World -> World * completion A.

Definition ret {A} (a : A) : M A := fun w => (w, Normal a).

Definition throw {A} (e : thrown) : M A := fun w => (w, Abrupt e).

Definition bind {A B} (m : M A) (k : A -> M B) : M B :=
  fun w =>
    match m w with
    | (w', Normal a) => k a w'
    | (w', Abrupt e) => (w', Abrupt e)
    end.

(** [try { body } catch (e) { handler }] *)
Definition try_catch {A} (body : M A) (handler : thrown -> M A) : M A :=
  fun w =>
    match body w with
    | (w', Normal a) => (w', Normal a)
    | (w', Abrupt e) => handler e w'
    end.

(** [await p] *)
Definition await {A} (p : Promise A) : M A :=
  match outcome p with
  | Fulfilled v => ret v
  | Rejected e => throw e
  end.

Definition lift {A} (c : completion A) : M A := fun w => (w, c).

Definition console_error (line : string) (e : thrown) : M unit :=
  fun w => (logged line e w, Normal tt).

Declare Scope js_scope.
Delimit Scope js_scope with js.
Notation "x <- m ;; k" := (bind m (fun x => k))
  (at level 61, m at next level, right associativity) : js_scope.
Notation "m ;;; k" := (bind m (fun _ => k))
  (at level 61, right associativity) : js_scope.
Open Scope js_scope.

(** ** Calls through the provider *)

Section ProviderCalls.

Variable provider : Provider.

(** [provider.getCode(address)] *)
Definition provider_getCode (address : string) : M (Promise string) :=
  fun w => (issued (GetCode address) w, Normal (getCode provider (calls w) address)).

(** [new ethers.Contract(address, abi, provider)] *)
Definition new_Contract (address : string) (abi : list string) : M Contract :=
  fun w =>
    (issued (NewContract address abi) w,
     match bind_failure provider (calls w) address abi with
     | Some e => Abrupt e
     | None => Normal {| target := address; interface := Interface_from abi |}
     end).

(** The contract's methods are asynchronous: a call hands back a
    promise and never throws by itself. *)
Definition contract_supportsInterface (contract : Contract) (interfaceId : string)
  : M (Promise bool) :=
  fun w => (issued (SupportsInterface (target contract) interfaceId) w,
            Normal (supportsInterface provider (calls w) (target contract) interfaceId)).

Definition contract_balanceOf (contract : Contract) (owner : string) : M (Promise Z) :=
  fun w => (issued (BalanceOf (target contract) owner) w,
            Normal (balanceOf provider (calls w) (target contract) owner)).

Definition contract_ownerOf (contract : Contract) (tokenId : Z) : M (Promise string) :=
  fun w => (issued (OwnerOf (target contract) tokenId) w,
            Normal (ownerOf provider (calls w) (target contract) tokenId)).

Definition contract_name (contract : Contract) : M (Promise string) :=
  fun w => (issued (Name (target contract)) w,
            Normal (name_ provider (calls w) (target contract))).

Definition contract_symbol (contract : Contract) : M (Promise string) :=
  fun w => (issued (Symbol (target contract)) w,
            Normal (symbol_ provider (calls w) (target contract))).

Definition contract_totalSupply (contract : Contract) : M (Promise Z) :=
  fun w => (issued (TotalSupply (target contract)) w,
            Normal (totalSupply_ provider (calls w) (target contract))).

End ProviderCalls.

(** ** validateNFTContract *)

Record ValidationResult : Type := {
  valid : bool;
  reason : option string
}.

Definition nft_abi : list string :=
  [ "function supportsInterface(bytes4) view returns (bool)";
    "function balanceOf(address) view returns (uint256)";
    "function ownerOf(uint256) view returns (address)";
    "function balanceOfBatch(address[],uint256[]) view returns (uint256[])" ].

Definition ERC721_id : string := "0x80ac58cd".
Definition ERC1155_id : string := "0xd9b67a26".
Definition placeholder_owner : string := "0x0000000000000000000000000000000000000001".

Section Validate.

(** [ethers.isAddress]: the chain's address-format check. *)
Variable isAddress : string -> bool.
Variable provider : Provider.

(** The first inner [try]: the deployment check.  [Some r] is a
    [return r] from the function, [None] falls through. *)
Definition check_deployed (contractAddress : string) : M (option ValidationResult) :=
  try_catch
    (p <- provider_getCode provider contractAddress ;;
     code <- await (JsPromise.race p
                      (JsPromise.reject_after 10000
                         (ErrorObj "Timeout checking contract code"))) ;;
     if String.eqb code "0x" then
       ret (Some {| valid := false;
                    reason := Some "Contract not deployed at this address" |})
     else ret None)
    (fun codeError =>
       console_error "Error checking contract code:" codeError ;;;
       ret (Some {| valid := false;
                    reason := Some "Failed to verify contract deployment - network issues" |})).

(** The body of the second inner [try]: interface probes, fallback
    calls and the bytecode scan. *)
Definition nft_heuristics (contractAddress : string) (contract : Contract)
  : M ValidationResult :=
  p721 <- contract_supportsInterface provider contract ERC721_id ;;
  isERC721 <- await (JsPromise.catch_ p721 (fun _ => false)) ;;
  p1155 <- contract_supportsInterface provider contract ERC1155_id ;;
  isERC1155 <- await (JsPromise.catch_ p1155 (fun _ => false)) ;;
  if isERC721 || isERC1155 then ret {| valid := true; reason := None |}
  else
    pb <- contract_balanceOf provider contract placeholder_owner ;;
    hasBalanceOf <- await (JsPromise.catch_ (JsPromise.then_ pb (fun _ => true))
                             (fun _ => false)) ;;
    po <- contract_ownerOf provider contract 1 ;;
    hasOwnerOf <- await (JsPromise.catch_ (JsPromise.then_ po (fun _ => true))
                           (fun _ => false)) ;;
    if hasBalanceOf || hasOwnerOf then ret {| valid := true; reason := None |}
    else
      pc <- provider_getCode provider contractAddress ;;
      bytecode <- await pc ;;
      if JsString.includes bytecode "Transfer(" || JsString.includes bytecode "5RANSFERE"
      then ret {| valid := true;
                  reason := Some "Contract appears to implement transfer events" |}
      else ret {| valid := false;
                  reason := Some "Contract does not appear to be an ERC721 or ERC1155 NFT" |}.

Definition validateNFTContract (contractAddress : string) : M ValidationResult :=
  try_catch
    (if String.eqb contractAddress "" || negb (isAddress contractAddress) then
       ret {| valid := false; reason := Some "Invalid Ethereum address format" |}
     else
       returned <- check_deployed contractAddress ;;
       match returned with
       | Some result => ret result
       | None =>
           contract <- new_Contract provider contractAddress nft_abi ;;
           try_catch (nft_heuristics contractAddress contract)
             (fun _ => ret {| valid := true; reason := None |})
       end)
    (fun error =>
       console_error "Error validating NFT contract:" error ;;;
       ret {| valid := false;
              reason := Some ("Validation error: " ++ error_text error) |}).

End Validate.

(** ** getNFTContractInfo *)

Record ContractInfo : Type := {
  name : option string;
  symbol : option string;
  totalSupply : option Z
}.

Definition info_abi : list string :=
  [ "function name() view returns (string)";
    "function symbol() view returns (string)";
    "function totalSupply() view returns (uint256)" ].

Definition empty_info : ContractInfo :=
  {| name := None; symbol := None; totalSupply := None |}.

Section Info.

Variable provider : Provider.

Definition getNFTContractInfo (contractAddress : string) : M ContractInfo :=
  try_catch
    (contract <- new_Contract provider contractAddress info_abi ;;
     pn <- contract_name provider contract ;;
     ps <- contract_symbol provider contract ;;
     pt <- contract_totalSupply provider contract ;;
     results <- await (JsPromise.allSettled3 pn ps pt) ;;
     let '(nameResult, symbolResult, supplyResult) := results in
     ret {| name := JsPromise.value_or_undefined nameResult;
            symbol := JsPromise.value_or_undefined symbolResult;
            totalSupply := JsPromise.value_or_undefined supplyResult |})
    (fun error =>
       console_error "Error getting NFT contract info:" error ;;;
       ret empty_info).

End Info.

(** ** detectMintFunction *)

Definition mintFunctions : list string :=
  [ "function mint(uint256)";
    "function mint(address,uint256)";
    "function publicMint(uint256)";
    "function publicMint(address,uint256)";
    "function mintPublic(uint256)";
    "function mintPublic(address,uint256)" ].

(** [func.split('(')[0].replace('function ', '')] *)
Definition functionName (func : string) : string :=
  JsString.replace (JsString.first (JsString.split func "(")) "function " "".

Section Detect.

Variable provider : Provider.

(** The [for ... of] loop; [Some func] is the [return func] inside it. *)
Fixpoint detect_loop (contractAddress : string) (candidates : list string)
  : M (option string) :=
  match candidates with
  | [] => ret None
  | func :: rest =>
      contract <- new_Contract provider contractAddress [func] ;;
      found <- try_catch
                 (funcFragment <- lift (getFunction (interface contract)
                                          (functionName func)) ;;
                  match funcFragment with
                  | Some _ => ret (Some func)
                  | None => ret None
                  end)
                 (fun _ => ret None) ;;
      match found with
      | Some f => ret (Some f)
      | None => detect_loop contractAddress rest
      end
  end.

Definition detectMintFunction (contractAddress : string) : M (option string) :=
  try_catch (detect_loop contractAddress mintFunctions)
    (fun error =>
       console_error "Error detecting mint function:" error ;;;
       ret None).

End Detect.

(** ** The same functions in the open world

    Above, every promise of the provider settles and every thrown value
    can be printed.  Neither is guaranteed by JavaScript: a promise may
    stay pending for ever, and [String(error)] throws for a value such as
    an object without prototype.  The module below embeds the three
    functions once more with both possibilities in the model; a run can
    then also never complete.  Calls and contracts are those of above. *)

Module Open.

(** A thrown value: one of those above, or one that cannot be printed. *)
Inductive value : Type :=
| Printable (e : thrown)
| Unprintable.

(** How a piece of code completes, if it does. *)
Inductive ending (A : Type) : Type :=
| Done (a : A)
| Threw (v : value)
| Hung.
Arguments Done {A} a.
Arguments Threw {A} v.
Arguments Hung {A}.

(** [error instanceof Error ? error.message : String(error)] *)
Definition printed (error : value) : ending string :=
  match error with
  | Printable e => Done (error_text e)
  | Unprintable =>
      Threw (Printable (ErrorObj "Cannot convert object to primitive value"))
  end.

Inductive fate (A : Type) : Type :=
| Fulfils (value : A)
| Rejects (why : value)
| Pends.
Arguments Fulfils {A} value.
Arguments Rejects {A} why.
Arguments Pends {A}.

(** A promise: how it ends and, unless it stays pending, when. *)
Record Promise (A : Type) : Type := mkPromise {
  settles_after : N;
  outcome : fate A
}.
Arguments mkPromise {A} _ _.
Arguments settles_after {A} _.
Arguments outcome {A} _.

(** [p.then(f)] *)
Definition then_ {A B} (p : Promise A) (f : A -> B) : Promise B :=
  mkPromise (settles_after p)
    match outcome p with
    | Fulfils v => Fulfils (f v)
    | Rejects e => Rejects e
    | Pends => Pends
    end.

(** [p.catch(f)] *)
Definition catch_ {A} (p : Promise A) (f : value -> A) : Promise A :=
  mkPromise (settles_after p)
    match outcome p with
    | Fulfils v => Fulfils v
    | Rejects e => Fulfils (f e)
    | Pends => Pends
    end.

(** [new Promise((_, reject) => setTimeout(() => reject(e), ms))] *)
Definition reject_after {A} (ms : N) (e : value) : Promise A :=
  mkPromise ms (Rejects e).

(** [Promise.race([p, q])]: a pending promise never wins. *)
Definition race {A} (p q : Promise A) : Promise A :=
  match outcome p, outcome q with
  | Pends, _ => q
  | _, Pends => p
  | _, _ => if (settles_after p <=? settles_after q)%N then p else q
  end.

(** [Promise.allSettled([p, q, r])]: pending as long as one of them is. *)
Definition allSettled3 {A B C} (p : Promise A) (q : Promise B) (r : Promise C)
  : Promise (fate A * fate B * fate C) :=
  mkPromise (N.max (settles_after p) (N.max (settles_after q) (settles_after r)))
    match outcome p, outcome q, outcome r with
    | Pends, _, _ | _, Pends, _ | _, _, Pends => Pends
    | op, oq, or => Fulfils (op, oq, or)
    end.

(** [result.status === 'fulfilled' ? result.value : undefined] *)
Definition value_or_undefined {A} (result : fate A) : option A :=
  match result with
  | Fulfils v => Some v
  | _ => None
  end.

Record Provider : Type := {
  getCode : list call -> string -> Promise string;
  bind_failure : list call -> string -> list string -> option value;
  supportsInterface : list call -> string -> string -> Promise bool;
  balanceOf : list call -> string -> string -> Promise Z;
  ownerOf : list call -> string -> Z -> Promise string;
  name_ : list call -> string -> Promise string;
  symbol_ : list call -> string -> Promise string;
  totalSupply_ : list call -> string -> Promise Z
}.

Record World : Type := {
  calls : list call;
  console : list (string * value)
}.

Definition issued (c : call) (w : World) : World :=
  {| calls := calls w ++ [c]; console := console w |}.

Definition logged (line : string) (e : value) (w : World) : World :=
  {| calls := calls w; console := console w ++ [(line, e)] |}.

Definition M (A : Type) : Type := World -> World * ending A.

Definition ret {A} (a : A) : M A := fun w => (w, Done a).

Definition throw {A} (e : value) : M A := fun w => (w, Threw e).

Definition bind {A B} (m : M A) (k : A -> M B) : M B :=
  fun w =>
    match m w with
    | (w', Done a) => k a w'
    | (w', Threw e) => (w', Threw e)
    | (w', Hung) => (w', Hung)
    end.

(** [try { body } catch (e) { handler }]; a body that never completes
    never reaches the handler. *)
Definition try_catch {A} (body : M A) (handler : value -> M A) : M A :=
  fun w =>
    match body w with
    | (w', Done a) => (w', Done a)
    | (w', Threw e) => handler e w'
    | (w', Hung) => (w', Hung)
    end.

(** [await p] *)
Definition await {A} (p : Promise A) : M A :=
  fun w =>
    (w, match outcome p with
        | Fulfils v => Done v
        | Rejects e => Threw e
        | Pends => Hung
        end).

Definition lift {A} (c : ending A) : M A := fun w => (w, c).

(** What the lookup in a local interface throws can be printed. *)
Definition lift_lookup {A} (c : completion A) : M A :=
  fun w =>
    (w, match c with
        | Normal a => Done a
        | Abrupt e => Threw (Printable e)
        end).

Definition console_error (line : string) (e : value) : M unit :=
  fun w => (logged line e w, Done tt).

Declare Scope open_scope.
Delimit Scope open_scope with open.
Notation "x <- m ;; k" := (bind m (fun x => k))
  (at level 61, m at next level, right associativity) : open_scope.
Notation "m ;;; k" := (bind m (fun _ => k))
  (at level 61, right associativity) : open_scope.
Open Scope open_scope.

Section Functions.

Variable isAddress : string -> bool.
Variable provider : Provider.

Definition provider_getCode (address : string) : M (Promise string) :=
  fun w => (issued (GetCode address) w, Done (getCode provider (calls w) address)).

Definition new_Contract (address : string) (abi : list string) : M Contract :=
  fun w =>
    (issued (NewContract address abi) w,
     match bind_failure provider (calls w) address abi with
     | Some e => Threw e
     | None => Done {| target := address; interface := Interface_from abi |}
     end).

Definition contract_supportsInterface (contract : Contract) (interfaceId : string)
  : M (Promise bool) :=
  fun w => (issued (SupportsInterface (target contract) interfaceId) w,
            Done (supportsInterface provider (calls w) (target contract) interfaceId)).

Definition contract_balanceOf (contract : Contract) (owner : string) : M (Promise Z) :=
  fun w => (issued (BalanceOf (target contract) owner) w,
            Done (balanceOf provider (calls w) (target contract) owner)).

Definition contract_ownerOf (contract : Contract) (tokenId : Z) : M (Promise string) :=
  fun w => (issued (OwnerOf (target contract) tokenId) w,
            Done (ownerOf provider (calls w) (target contract) tokenId)).

Definition contract_name (contract : Contract) : M (Promise string) :=
  fun w => (issued (Name (target contract)) w,
            Done (name_ provider (calls w) (target contract))).

Definition contract_symbol (contract : Contract) : M (Promise string) :=
  fun w => (issued (Symbol (target contract)) w,
            Done (symbol_ provider (calls w) (target contract))).

Definition contract_totalSupply (contract : Contract) : M (Promise Z) :=
  fun w => (issued (TotalSupply (target contract)) w,
            Done (totalSupply_ provider (calls w) (target contract))).

Definition check_deployed (contractAddress : string) : M (option ValidationResult) :=
  try_catch
    (p <- provider_getCode contractAddress ;;
     code <- await (race p
                      (reject_after 10000
                         (Printable (ErrorObj "Timeout checking contract code")))) ;;
     if String.eqb code "0x" then
       ret (Some {| valid := false;
                    reason := Some "Contract not deployed at this address" |})
     else ret None)
    (fun codeError =>
       console_error "Error checking contract code:" codeError ;;;
       ret (Some {| valid := false;
                    reason := Some "Failed to verify contract deployment - network issues" |})).

Definition nft_heuristics (contractAddress : string) (contract : Contract)
  : M ValidationResult :=
  p721 <- contract_supportsInterface contract ERC721_id ;;
  isERC721 <- await (catch_ p721 (fun _ => false)) ;;
  p1155 <- contract_supportsInterface contract ERC1155_id ;;
  isERC1155 <- await (catch_ p1155 (fun _ => false)) ;;
  if isERC721 || isERC1155 then ret {| valid := true; reason := None |}
  else
    pb <- contract_balanceOf contract placeholder_owner ;;
    hasBalanceOf <- await (catch_ (then_ pb (fun _ => true)) (fun _ => false)) ;;
    po <- contract_ownerOf contract 1 ;;
    hasOwnerOf <- await (catch_ (then_ po (fun _ => true)) (fun _ => false)) ;;
    if hasBalanceOf || hasOwnerOf then ret {| valid := true; reason := None |}
    else
      pc <- provider_getCode contractAddress ;;
      bytecode <- await pc ;;
      if JsString.includes bytecode "Transfer(" || JsString.includes bytecode "5RANSFERE"
      then ret {| valid := true;
                  reason := Some "Contract appears to implement transfer events" |}
      else ret {| valid := false;
                  reason := Some "Contract does not appear to be an ERC721 or ERC1155 NFT" |}.

Definition validateNFTContract (contractAddress : string) : M ValidationResult :=
  try_catch
    (if String.eqb contractAddress "" || negb (isAddress contractAddress) then
       ret {| valid := false; reason := Some "Invalid Ethereum address format" |}
     else
       returned <- check_deployed contractAddress ;;
       match returned with
       | Some result => ret result
       | None =>
           contract <- new_Contract contractAddress nft_abi ;;
           try_catch (nft_heuristics contractAddress contract)
             (fun _ => ret {| valid := true; reason := None |})
       end)
    (fun error =>
       console_error "Error validating NFT contract:" error ;;;
       text <- lift (printed error) ;;
       ret {| valid := false; reason := Some ("Validation error: " ++ text) |}).

Definition getNFTContractInfo (contractAddress : string) : M ContractInfo :=
  try_catch
    (contract <- new_Contract contractAddress info_abi ;;
     pn <- contract_name contract ;;
     ps <- contract_symbol contract ;;
     pt <- contract_totalSupply contract ;;
     results <- await (allSettled3 pn ps pt) ;;
     let '(nameResult, symbolResult, supplyResult) := results in
     ret {| name := value_or_undefined nameResult;
            symbol := value_or_undefined symbolResult;
            totalSupply := value_or_undefined supplyResult |})
    (fun error =>
       console_error "Error getting NFT contract info:" error ;;;
       ret empty_info).

Fixpoint detect_loop (contractAddress : string) (candidates : list string)
  : M (option string) :=
  match candidates with
  | [] => ret None
  | func :: rest =>
      contract <- new_Contract contractAddress [func] ;;
      found <- try_catch
                 (funcFragment <- lift_lookup (getFunction (interface contract)
                                                 (functionName func)) ;;
                  match funcFragment with
                  | Some _ => ret (Some func)
                  | None => ret None
                  end)
                 (fun _ => ret None) ;;
      match found with
      | Some f => ret (Some f)
      | None => detect_loop contractAddress rest
      end
  end.

Definition detectMintFunction (contractAddress : string) : M (option string) :=
  try_catch (detect_loop contractAddress mintFunctions)
    (fun error =>
       console_error "Error detecting mint function:" error ;;;
       ret None).

End Functions.

End Open.

(** ** Vocabulary of the statements *)

Definition valid_unqualified : ValidationResult :=
  {| valid := true; reason := None |}.

(** The contract object [validateNFTContract] works with once the
    constructor has returned. *)
Definition nft_contract (contractAddress : string) : Contract :=
  {| target := contractAddress; interface := Interface_from nft_abi |}.

(** The world after the deployment check and the constructor. *)
Definition after_binding (contractAddress : string) (w : World) : World :=
  issued (NewContract contractAddress nft_abi) (issued (GetCode contractAddress) w).

(** The address is well formed, the bytecode query answers within the ten
    seconds with some code other than ["0x"], and the contract
    constructor does not throw: [validateNFTContract] started in [w]
    gets to its heuristics. *)
Definition reaches_heuristics (isAddress : string -> bool) (provider : Provider)
    (contractAddress : string) (w : World) : Prop :=
  contractAddress <> "" /\
  isAddress contractAddress = true /\
  (settles_after (getCode provider (calls w) contractAddress) < 10000)%N /\
  (exists code, outcome (getCode provider (calls w) contractAddress) = Fulfilled code
                /\ code <> "0x") /\
  bind_failure provider (calls w ++ [GetCode contractAddress]) contractAddress nft_abi = None.

(** A field of the result mirrors how its own call settled. *)
Definition mirrors {A} (field : option A) (result : settled A) : Prop :=
  match result with
  | Fulfilled v => field = Some v
  | Rejected _ => field = None
  end.

(** A promise, a provider, a world and a run of the settled model, seen
    in the open world. *)
Definition open_promise {A} (p : Promise A) : Open.Promise A :=
  Open.mkPromise (settles_after p)
    match outcome p with
    | Fulfilled v => Open.Fulfils v
    | Rejected e => Open.Rejects (Open.Printable e)
    end.

Definition open_provider (provider : Provider) : Open.Provider :=
  {| Open.getCode := fun h a => open_promise (getCode provider h a);
     Open.bind_failure := fun h a abi =>
       option_map Open.Printable (bind_failure provider h a abi);
     Open.supportsInterface := fun h a id =>
       open_promise (supportsInterface provider h a id);
     Open.balanceOf := fun h a owner => open_promise (balanceOf provider h a owner);
     Open.ownerOf := fun h a tokenId => open_promise (ownerOf provider h a tokenId);
     Open.name_ := fun h a => open_promise (name_ provider h a);
     Open.symbol_ := fun h a => open_promise (symbol_ provider h a);
     Open.totalSupply_ := fun h a => open_promise (totalSupply_ provider h a) |}.

Definition open_world (w : World) : Open.World :=
  {| Open.calls := calls w;
     Open.console := map (fun entry => (fst entry, Open.Printable (snd entry)))
                       (console w) |}.

Definition open_settled {A} (s : settled A) : Open.fate A :=
  match s with
  | Fulfilled v => Open.Fulfils v
  | Rejected e => Open.Rejects (Open.Printable e)
  end.

Definition open_run_with {A B} (f : A -> B) (run : World * completion A)
  : Open.World * Open.ending B :=
  (open_world (fst run),
   match snd run with
   | Normal a => Open.Done (f a)
   | Abrupt e => Open.Threw (Open.Printable e)
   end).

(** [m'] does in the open world what [m] does, with values seen
    through [f]. *)
Definition simulates {A B} (f : A -> B) (m : M A) (m' : Open.M B) : Prop :=
  forall w, m' (open_world w) = open_run_with f (m w).

(** Every call that the functions await without a timer settles: the
    calls of the contract's methods, and a bytecode query for an address
    that has been queried before (the first query runs against the
    timer). *)
Definition untimed_calls_settle (provider : Open.Provider) : Prop :=
  (forall h a id, Open.outcome (Open.supportsInterface provider h a id) <> Open.Pends) /\
  (forall h a owner, Open.outcome (Open.balanceOf provider h a owner) <> Open.Pends) /\
  (forall h a tokenId, Open.outcome (Open.ownerOf provider h a tokenId) <> Open.Pends) /\
  (forall h a, Open.outcome (Open.name_ provider h a) <> Open.Pends) /\
  (forall h a, Open.outcome (Open.symbol_ provider h a) <> Open.Pends) /\
  (forall h a, Open.outcome (Open.totalSupply_ provider h a) <> Open.Pends) /\
  (forall h a, In (GetCode a) h ->
               Open.outcome (Open.getCode provider h a) <> Open.Pends).

(** What the contract constructor throws, if it throws, can be printed. *)
Definition constructor_error_printable (provider : Open.Provider) : Prop :=
  forall h a abi, Open.bind_failure provider h a abi <> Some Open.Unprintable.


(** [s] holds [pat] somewhere. *)
Definition contains (s pat : string) : Prop :=
  exists before after, s = before ++ pat ++ after.

(** The address passes the guard of [validateNFTContract]. *)
Definition well_formed (isAddress : string -> bool) (contractAddress : string) : Prop :=
  contractAddress <> "" /\ isAddress contractAddress = true.

(** Every call [validateNFTContract] can issue, in the order of the
    source. *)
Definition validate_calls (contractAddress : string) : list call :=
  [ GetCode contractAddress;
    NewContract contractAddress nft_abi;
    SupportsInterface contractAddress ERC721_id;
    SupportsInterface contractAddress ERC1155_id;
    BalanceOf contractAddress placeholder_owner;
    OwnerOf contractAddress 1;
    GetCode contractAddress ].

(** The call log when the bytecode scan asks for the code again. *)
Definition scan_history (contractAddress : string) (w : World) : list call :=
  (calls w ++ firstn 6 (validate_calls contractAddress))%list.

(** Neither probe answers true and both fallback calls are rejected. *)
Definition no_signal (provider : Provider) (contractAddress : string) (w : World)
  : Prop :=
  let h := calls (after_binding contractAddress w) in
  let h1 := (h ++ [SupportsInterface contractAddress ERC721_id])%list in
  let h2 := (h1 ++ [SupportsInterface contractAddress ERC1155_id])%list in
  let h3 := (h2 ++ [BalanceOf contractAddress placeholder_owner])%list in
  outcome (supportsInterface provider h contractAddress ERC721_id) <> Fulfilled true /\
  outcome (supportsInterface provider h1 contractAddress ERC1155_id) <> Fulfilled true /\
  (exists e, outcome (balanceOf provider h2 contractAddress placeholder_owner)
             = Rejected e) /\
  (exists e, outcome (ownerOf provider h3 contractAddress 1) = Rejected e).

Definition network_issues : ValidationResult :=
  {| valid := false;
     reason := Some "Failed to verify contract deployment - network issues" |}.

Definition transfer_events : ValidationResult :=
  {| valid := true;
     reason := Some "Contract appears to implement transfer events" |}.

Definition not_an_nft : ValidationResult :=
  {| valid := false;
     reason := Some "Contract does not appear to be an ERC721 or ERC1155 NFT" |}.

(** ** Providers used as concrete inputs *)

Module Examples.

Definition revert : thrown := ErrorObj "call revert exception".

Definition fresh : World := {| calls := []; console := [] |}.

Definition address : string := "0x00000000000000000000000000000000000000aa".

(** An address with the prefix left out, which the format check accepts
    as well. *)
Definition unprefixed : string := "00000000000000000000000000000000000000aa".

(** A name to be resolved, not an address. *)
Definition ens_name : string := "apes.eth".

(** Any check will do where a concrete one is needed: this one is the
    format check without the checksum rule, forty hexadecimal digits
    with or without ["0x"] in front. *)
Definition isAddress (s : string) : bool :=
  let digits := if String.prefix "0x" s then JsString.drop 2 s else s in
  all_chars is_hex_char digits && Nat.eqb (String.length digits) 40.

(** Nothing is deployed: empty bytecode, every contract call reverts. *)
Definition nothing_deployed : Provider :=
  {| getCode := fun _ _ => mkPromise 120 (Fulfilled "0x");
     bind_failure := fun _ _ _ => None;
     supportsInterface := fun _ _ _ => mkPromise 80 (Rejected revert);
     balanceOf := fun _ _ _ => mkPromise 80 (Rejected revert);
     ownerOf := fun _ _ _ => mkPromise 80 (Rejected revert);
     name_ := fun _ _ => mkPromise 80 (Rejected revert);
     symbol_ := fun _ _ => mkPromise 80 (Rejected revert);
     totalSupply_ := fun _ _ => mkPromise 80 (Rejected revert) |}.

(** The provider cannot resolve names: the contract constructor throws
    for every target that is not a [0x] hexadecimal string. *)
Definition cannot_bind : Provider :=
  {| getCode := fun _ _ => mkPromise 120 (Fulfilled "0x6080");
     bind_failure := fun _ target _ =>
       if isHexString target then None
       else Some (ErrorObj "unsupported operation");
     supportsInterface := fun _ _ _ => mkPromise 80 (Rejected revert);
     balanceOf := fun _ _ _ => mkPromise 80 (Rejected revert);
     ownerOf := fun _ _ _ => mkPromise 80 (Rejected revert);
     name_ := fun _ _ => mkPromise 80 (Fulfilled "Apes");
     symbol_ := fun _ _ => mkPromise 80 (Fulfilled "APE");
     totalSupply_ := fun _ _ => mkPromise 80 (Fulfilled 10000%Z) |}.

(** Some code is deployed; the node answers the first bytecode query
    and fails the second; no probe succeeds; [symbol] reverts. *)
Definition flaky : Provider :=
  {| getCode := fun h _ =>
       match h with
       | [] => mkPromise 120 (Fulfilled "0x6080")
       | _ => mkPromise 300 (Rejected (NonError "socket hang up"))
       end;
     bind_failure := fun _ _ _ => None;
     supportsInterface := fun _ _ _ => mkPromise 80 (Rejected revert);
     balanceOf := fun _ _ _ => mkPromise 80 (Rejected revert);
     ownerOf := fun _ _ _ => mkPromise 80 (Rejected revert);
     name_ := fun _ _ => mkPromise 80 (Fulfilled "Apes");
     symbol_ := fun _ _ => mkPromise 80 (Rejected revert);
     totalSupply_ := fun _ _ => mkPromise 80 (Fulfilled 10000%Z) |}.

(** The first interface probe reverts, the second answers true. *)
Definition erc1155_only : Provider :=
  {| getCode := fun _ _ => mkPromise 120 (Fulfilled "0x6080");
     bind_failure := fun _ _ _ => None;
     supportsInterface := fun _ _ id =>
       if String.eqb id ERC1155_id then mkPromise 80 (Fulfilled true)
       else mkPromise 80 (Rejected revert);
     balanceOf := fun _ _ _ => mkPromise 80 (Rejected revert);
     ownerOf := fun _ _ _ => mkPromise 80 (Rejected revert);
     name_ := fun _ _ => mkPromise 80 (Rejected revert);
     symbol_ := fun _ _ => mkPromise 80 (Rejected revert);
     totalSupply_ := fun _ _ => mkPromise 80 (Rejected revert) |}.


(** The node is down: the bytecode query is rejected at once. *)
Definition node_down : Provider :=
  {| getCode := fun _ _ => mkPromise 15 (Rejected (ErrorObj "connect ECONNREFUSED"));
     bind_failure := fun _ _ _ => None;
     supportsInterface := fun _ _ _ => mkPromise 80 (Rejected revert);
     balanceOf := fun _ _ _ => mkPromise 80 (Rejected revert);
     ownerOf := fun _ _ _ => mkPromise 80 (Rejected revert);
     name_ := fun _ _ => mkPromise 80 (Rejected revert);
     symbol_ := fun _ _ => mkPromise 80 (Rejected revert);
     totalSupply_ := fun _ _ => mkPromise 80 (Rejected revert) |}.

(** A slow node: the bytecode arrives, but after twelve seconds. *)
Definition slow_node : Provider :=
  {| getCode := fun _ _ => mkPromise 12000 (Fulfilled "0x6080");
     bind_failure := fun _ _ _ => None;
     supportsInterface := fun _ _ _ => mkPromise 80 (Fulfilled true);
     balanceOf := fun _ _ _ => mkPromise 80 (Fulfilled 1%Z);
     ownerOf := fun _ _ _ => mkPromise 80 (Fulfilled address);
     name_ := fun _ _ => mkPromise 80 (Fulfilled "Apes");
     symbol_ := fun _ _ => mkPromise 80 (Fulfilled "APE");
     totalSupply_ := fun _ _ => mkPromise 80 (Fulfilled 10000%Z) |}.

(** No probe and no fallback call succeeds; the code is [code]. *)
Definition bare_code (code : string) : Provider :=
  {| getCode := fun _ _ => mkPromise 120 (Fulfilled code);
     bind_failure := fun _ _ _ => None;
     supportsInterface := fun _ _ _ => mkPromise 80 (Fulfilled false);
     balanceOf := fun _ _ _ => mkPromise 80 (Rejected revert);
     ownerOf := fun _ _ _ => mkPromise 80 (Rejected revert);
     name_ := fun _ _ => mkPromise 80 (Rejected revert);
     symbol_ := fun _ _ => mkPromise 80 (Rejected revert);
     totalSupply_ := fun _ _ => mkPromise 80 (Rejected revert) |}.

(** In the open world.  The node never answers the first bytecode query;
    a later one, and every contract call, it answers. *)
Definition deaf_at_first : Open.Provider :=
  {| Open.getCode := fun h _ =>
       match h with
       | [] => Open.mkPromise 0 Open.Pends
       | _ => Open.mkPromise 120 (Open.Fulfils "0x6080")
       end;
     Open.bind_failure := fun _ _ _ => None;
     Open.supportsInterface := fun _ _ _ => Open.mkPromise 80 (Open.Fulfils false);
     Open.balanceOf := fun _ _ _ =>
       Open.mkPromise 80 (Open.Rejects (Open.Printable revert));
     Open.ownerOf := fun _ _ _ =>
       Open.mkPromise 80 (Open.Rejects Open.Unprintable);
     Open.name_ := fun _ _ => Open.mkPromise 80 (Open.Fulfils "Apes");
     Open.symbol_ := fun _ _ => Open.mkPromise 80 (Open.Rejects Open.Unprintable);
     Open.totalSupply_ := fun _ _ => Open.mkPromise 80 (Open.Fulfils 10000%Z) |}.

(** The bytecode is there, but the contract never answers a call. *)
Definition mute_contract : Open.Provider :=
  {| Open.getCode := fun _ _ => Open.mkPromise 120 (Open.Fulfils "0x6080");
     Open.bind_failure := fun _ _ _ => None;
     Open.supportsInterface := fun _ _ _ => Open.mkPromise 0 Open.Pends;
     Open.balanceOf := fun _ _ _ => Open.mkPromise 0 Open.Pends;
     Open.ownerOf := fun _ _ _ => Open.mkPromise 0 Open.Pends;
     Open.name_ := fun _ _ => Open.mkPromise 0 Open.Pends;
     Open.symbol_ := fun _ _ => Open.mkPromise 80 (Open.Fulfils "APE");
     Open.totalSupply_ := fun _ _ => Open.mkPromise 80 (Open.Fulfils 10000%Z) |}.

(** Resolving a name throws a value that cannot be printed. *)
Definition odd_resolver : Open.Provider :=
  {| Open.getCode := fun _ _ => Open.mkPromise 120 (Open.Fulfils "0x6080");
     Open.bind_failure := fun _ target _ =>
       if isHexString target then None else Some Open.Unprintable;
     Open.supportsInterface := fun _ _ _ => Open.mkPromise 80 (Open.Fulfils true);
     Open.balanceOf := fun _ _ _ => Open.mkPromise 80 (Open.Fulfils 1%Z);
     Open.ownerOf := fun _ _ _ => Open.mkPromise 80 (Open.Fulfils address);
     Open.name_ := fun _ _ => Open.mkPromise 80 (Open.Fulfils "Apes");
     Open.symbol_ := fun _ _ => Open.mkPromise 80 (Open.Fulfils "APE");
     Open.totalSupply_ := fun _ _ => Open.mkPromise 80 (Open.Fulfils 10000%Z) |}.

Definition open_fresh : Open.World := {| Open.calls := []; Open.console := [] |}.

End Examples.

(** ** Proof steps *)

(** Unfold one layer of the monad and bring the call log to the form
    [calls w ++ [c]]. *)
Ltac run_js :=
  unfold bind, ret, throw, lift, await, console_error,
    contract_supportsInterface, contract_balanceOf, contract_ownerOf,
    contract_name, contract_symbol, contract_totalSupply, provider_getCode,
    JsPromise.catch_, JsPromise.then_, JsPromise.allSettled3;
  cbn [outcome settles_after target nft_contract];
  repeat match goal with
         | |- context [calls (issued ?c ?w)] =>
             change (calls (issued c w)) with (calls w ++ [c])%list
         end.

(** Case analysis on how the next promise of the run settled. *)
Ltac settle :=
  match goal with
  | |- context [match outcome ?p with _ => _ end] =>
      destruct (outcome p) as [? | ?] eqn:?; run_js
  end.

(** Closing one leaf of the case analysis of [validateNFTContract]: the
    run issued the first [n] calls of [validate_calls] and logged nothing
    ([close_silent]) or one line ([close_logged]). *)
Ltac same_log :=
  cbn [calls console logged issued after_binding];
  rewrite <- ?app_assoc; cbn [app firstn validate_calls];
  rewrite ?app_nil_r; reflexivity.

Ltac close_silent n :=
  solve [ do 2 eexists; exists n, (@nil (string * thrown));
          split; [reflexivity |];
          split; [same_log |]; split; [same_log |];
          split; [cbn; auto 10 |];
          left; split; [reflexivity |]; auto 10 ].

Ltac close_logged n :=
  solve [ do 2 eexists; exists n; eexists;
          split; [reflexivity |];
          split; [same_log |];
          split; [cbn [calls console logged issued after_binding]; reflexivity |];
          split; [cbn; auto 10 |];
          right; do 2 eexists; split; [reflexivity |]; auto ].

Ltac close_case :=
  first [ close_silent constr:(0%nat) | close_silent constr:(1%nat)
        | close_silent constr:(4%nat) | close_silent constr:(6%nat)
        | close_silent constr:(7%nat)
        | close_logged constr:(1%nat) | close_logged constr:(2%nat) ].

(** The same steps in the open world. *)
Ltac run_open :=
  unfold Open.bind, Open.ret, Open.throw, Open.lift, Open.lift_lookup, Open.await,
    Open.console_error, Open.contract_supportsInterface, Open.contract_balanceOf,
    Open.contract_ownerOf, Open.contract_name, Open.contract_symbol,
    Open.contract_totalSupply, Open.provider_getCode, Open.new_Contract,
    Open.catch_, Open.then_, Open.allSettled3, Open.race, Open.reject_after,
    Open.printed;
  cbn [Open.outcome Open.settles_after target];
  repeat match goal with
         | |- context [Open.calls (Open.issued ?c ?w)] =>
             change (Open.calls (Open.issued c w)) with (Open.calls w ++ [c])%list
         end.

Ltac open_settle :=
  match goal with
  | |- context [match Open.outcome ?p with _ => _ end] =>
      destruct (Open.outcome p) eqn:?; run_open
  end.

(** The bytecode of the address has been queried before. *)
Ltac in_log :=
  repeat (apply in_or_app; first [ right; left; reflexivity | left ]);
  try assumption.

(** A call that settles by assumption is not pending. *)
Ltac never_pends :=
  exfalso;
  match goal with
  | H : untimed_calls_settle _ |- _ =>
      destruct H as (H1 & H2 & H3 & H4 & H5 & H6 & H7);
      first [ eapply H1; eassumption | eapply H2; eassumption
            | eapply H3; eassumption | eapply H4; eassumption
            | eapply H5; eassumption | eapply H6; eassumption
            | eapply H7; [| eassumption]; in_log ]
  end.

(** ** The monad's control flow *)

Lemma try_catch_normal {A} (body : M A) (handler : thrown -> M A) :
  (forall e w, exists w' r, handler e w = (w', Normal r)) ->
  forall w, exists w' r, try_catch body handler w = (w', Normal r).
Proof.
  intros Hh w. unfold try_catch.
  destruct (body w) as [w1 [a | e]].
  - exists w1, a. reflexivity.
  - apply Hh.
Qed.

Lemma try_catch_passes {A} (body : M A) (handler : thrown -> M A) w w' r :
  body w = (w', Normal r) -> try_catch body handler w = (w', Normal r).
Proof. intros H. unfold try_catch. rewrite H. reflexivity. Qed.

Lemma try_catch_handles {A} (body : M A) (handler : thrown -> M A) w w' e :
  body w = (w', Abrupt e) -> try_catch body handler w = handler e w'.
Proof. intros H. unfold try_catch. rewrite H. reflexivity. Qed.

Lemma log_and_return_normal {A} (line : string) (a : A) :
  forall e w, exists w' r,
    (console_error line e ;;; ret a) w = (w', Normal r).
Proof. intros e w. eexists. eexists. reflexivity. Qed.

Lemma new_Contract_run provider address abi w :
  new_Contract provider address abi w =
  (issued (NewContract address abi) w,
   match bind_failure provider (calls w) address abi with
   | Some e => Abrupt e
   | None => Normal {| target := address; interface := Interface_from abi |}
   end).
Proof. reflexivity. Qed.

(** ** validateNFTContract: the way to the heuristics *)

Lemma wellformed_guard isAddress contractAddress :
  contractAddress <> "" -> isAddress contractAddress = true ->
  String.eqb contractAddress "" || negb (isAddress contractAddress) = false.
Proof.
  intros Hne Hok. rewrite Hok.
  destruct (String.eqb_spec contractAddress ""); [contradiction | reflexivity].
Qed.

Lemma validate_after_binding isAddress provider contractAddress w :
  reaches_heuristics isAddress provider contractAddress w ->
  validateNFTContract isAddress provider contractAddress w =
  try_catch (nft_heuristics provider contractAddress (nft_contract contractAddress))
    (fun _ => ret valid_unqualified) (after_binding contractAddress w).
Proof.
  intros (Hne & Hok & Hfast & (code & Hcode & Hdeployed) & Hbind).
  unfold validateNFTContract.
  rewrite (wellformed_guard _ _ Hne Hok).
  unfold check_deployed, provider_getCode, new_Contract, JsPromise.race,
    JsPromise.reject_after, await, after_binding.
  unfold try_catch at 1. unfold bind at 1. unfold try_catch at 1. unfold bind at 1.
  cbn [settles_after outcome].
  destruct (N.leb_spec (settles_after (getCode provider (calls w) contractAddress)) 10000);
    [| lia].
  unfold bind at 1. rewrite Hcode. unfold ret at 1.
  destruct (String.eqb_spec code "0x"); [contradiction |].
  unfold ret at 1. cbn [Interface_from nft_abi].
  change (calls (issued (GetCode contractAddress) w))
    with (calls w ++ [GetCode contractAddress]).
  unfold bind at 1. cbn -[nft_heuristics try_catch].
  rewrite Hbind.
  unfold nft_contract. cbn -[nft_heuristics].
  unfold try_catch.
  match goal with
  | |- context [nft_heuristics ?p ?a ?c ?w0] =>
      destruct (nft_heuristics p a c w0) as [w1 [r | e]]
  end; reflexivity.
Qed.

(** The function up to its heuristics, as one case analysis on what the
    world answers. *)
Lemma validate_run isAddress provider contractAddress w :
  validateNFTContract isAddress provider contractAddress w =
  if String.eqb contractAddress "" || negb (isAddress contractAddress) then
    (w, Normal {| valid := false; reason := Some "Invalid Ethereum address format" |})
  else
    let p := getCode provider (calls w) contractAddress in
    let w1 := issued (GetCode contractAddress) w in
    if (settles_after p <=? 10000)%N then
      match outcome p with
      | Rejected e =>
          (logged "Error checking contract code:" e w1, Normal network_issues)
      | Fulfilled code =>
          if String.eqb code "0x" then
            (w1, Normal {| valid := false;
                           reason := Some "Contract not deployed at this address" |})
          else
            match bind_failure provider (calls w1) contractAddress nft_abi with
            | Some e =>
                (logged "Error validating NFT contract:" e
                   (after_binding contractAddress w),
                 Normal {| valid := false;
                           reason := Some ("Validation error: " ++ error_text e) |})
            | None =>
                try_catch
                  (nft_heuristics provider contractAddress (nft_contract contractAddress))
                  (fun _ => ret valid_unqualified)
                  (after_binding contractAddress w)
            end
      end
    else
      (logged "Error checking contract code:"
         (ErrorObj "Timeout checking contract code") w1,
       Normal network_issues).
Proof.
  unfold validateNFTContract.
  destruct (String.eqb contractAddress "" || negb (isAddress contractAddress));
    [reflexivity |].
  unfold check_deployed, provider_getCode, JsPromise.race,
    JsPromise.reject_after, await.
  unfold try_catch at 1. unfold bind at 1. unfold try_catch at 1. unfold bind at 1.
  cbn [settles_after outcome]. cbv zeta.
  destruct (settles_after (getCode provider (calls w) contractAddress) <=? 10000)%N;
    [| reflexivity].
  unfold bind at 1.
  destruct (outcome (getCode provider (calls w) contractAddress)) as [code | e];
    [| reflexivity].
  unfold ret at 1.
  destruct (String.eqb code "0x"); [reflexivity |].
  unfold ret at 1. unfold bind at 1.
  rewrite new_Contract_run.
  destruct (bind_failure provider (calls (issued (GetCode contractAddress) w))
              contractAddress nft_abi); [reflexivity |].
  unfold try_catch.
  change {| target := contractAddress; interface := _ |}
    with (nft_contract contractAddress).
  change (issued (NewContract contractAddress nft_abi)
            (issued (GetCode contractAddress) w))
    with (after_binding contractAddress w).
  destruct (nft_heuristics provider contractAddress (nft_contract contractAddress)
              (after_binding contractAddress w)) as [w2 [r | e]]; reflexivity.
Qed.

(** ** Claims about validateNFTContract *)

(** C5: an address that is empty or fails the format check is rejected
    with the bad-format reason, and the world is left as it was: no call
    reaches the provider (and nothing is logged). *)
Theorem validate_malformed_address isAddress provider contractAddress w :
  contractAddress = "" \/ isAddress contractAddress = false ->
  validateNFTContract isAddress provider contractAddress w =
  (w, Normal {| valid := false; reason := Some "Invalid Ethereum address format" |}).
Proof.
  intros Hbad. unfold validateNFTContract.
  assert (String.eqb contractAddress "" || negb (isAddress contractAddress) = true) as ->.
  { destruct Hbad as [-> | ->]; [reflexivity | apply orb_true_r]. }
  reflexivity.
Qed.

Lemma validate_malformed_address_witness :
  validateNFTContract Examples.isAddress Examples.nothing_deployed "" Examples.fresh =
  (Examples.fresh,
   Normal {| valid := false; reason := Some "Invalid Ethereum address format" |}).
Proof. apply validate_malformed_address. left. reflexivity. Defined.

(** C6: for a well-formed address whose bytecode query answers ["0x"]
    within the ten seconds, the result is invalid with the not-deployed
    reason, and the bytecode query is the only call issued. *)
Theorem validate_not_deployed isAddress provider contractAddress w :
  contractAddress <> "" ->
  isAddress contractAddress = true ->
  (settles_after (getCode provider (calls w) contractAddress) < 10000)%N ->
  outcome (getCode provider (calls w) contractAddress) = Fulfilled "0x" ->
  validateNFTContract isAddress provider contractAddress w =
  ({| calls := calls w ++ [GetCode contractAddress]; console := console w |},
   Normal {| valid := false; reason := Some "Contract not deployed at this address" |}).
Proof.
  intros Hne Hok Hfast Hcode. unfold validateNFTContract.
  rewrite (wellformed_guard _ _ Hne Hok).
  unfold check_deployed, JsPromise.race, JsPromise.reject_after, try_catch.
  run_js.
  destruct (N.leb_spec (settles_after (getCode provider (calls w) contractAddress)) 10000);
    [| lia].
  rewrite Hcode. reflexivity.
Qed.

Lemma validate_not_deployed_witness :
  validateNFTContract Examples.isAddress Examples.nothing_deployed
    Examples.address Examples.fresh =
  ({| calls := [GetCode Examples.address]; console := [] |},
   Normal {| valid := false; reason := Some "Contract not deployed at this address" |}).
Proof.
  apply (validate_not_deployed Examples.isAddress Examples.nothing_deployed
           Examples.address Examples.fresh).
  - discriminate.
  - reflexivity.
  - reflexivity.
  - reflexivity.
Defined.






(** C4: whatever exception leaves the block of interface probes, fallback
    calls and bytecode scan, [validateNFTContract] swallows it and
    answers the permissive [{ valid: true }]; the outer handler and its
    error result are not involved. *)
Theorem validate_swallows_heuristics_exception
    isAddress provider contractAddress w w' e :
  reaches_heuristics isAddress provider contractAddress w ->
  nft_heuristics provider contractAddress (nft_contract contractAddress)
    (after_binding contractAddress w) = (w', Abrupt e) ->
  validateNFTContract isAddress provider contractAddress w =
  (w', Normal valid_unqualified).
Proof.
  intros Hreach Hthrows.
  rewrite (validate_after_binding _ _ _ _ Hreach).
  rewrite (try_catch_handles _ _ _ _ _ Hthrows). reflexivity.
Qed.

Lemma validate_swallows_heuristics_exception_witness :
  validateNFTContract Examples.isAddress Examples.flaky Examples.address Examples.fresh =
  ({| calls := [ GetCode Examples.address;
                 NewContract Examples.address nft_abi;
                 SupportsInterface Examples.address ERC721_id;
                 SupportsInterface Examples.address ERC1155_id;
                 BalanceOf Examples.address placeholder_owner;
                 OwnerOf Examples.address 1;
                 GetCode Examples.address ];
      console := [] |},
   Normal valid_unqualified).
Proof.
  apply (validate_swallows_heuristics_exception Examples.isAddress Examples.flaky
           Examples.address Examples.fresh _ (NonError "socket hang up")).
  - repeat split; try reflexivity; try discriminate.
    exists "0x6080". split; [reflexivity | discriminate].
  - reflexivity.
Defined.

(** The only exception that can leave the heuristics block is the
    rejection of its bytecode query: the probes and the fallback calls
    carry their own handlers. *)
Lemma nft_heuristics_throws provider contractAddress contract w w' e :
  nft_heuristics provider contractAddress contract w = (w', Abrupt e) ->
  exists h, outcome (getCode provider h contractAddress) = Rejected e.
Proof.
  unfold nft_heuristics. run_js.
  do 2 settle;
    repeat match goal with b : bool |- _ => destruct b end;
    cbn [orb]; try discriminate; run_js;
    do 2 settle; cbn [orb]; try discriminate; run_js;
    settle;
    try (match goal with
         | |- context [if ?c then _ else _] => destruct c
         end; discriminate);
    intros [= _ <-]; eexists; eassumption.
Qed.

(** ** Claims about getNFTContractInfo *)

(** C9: once the contract is bound, each field of the result mirrors how
    its own read call settled (the value when fulfilled, absent when
    rejected), whatever became of the other two calls; the three calls
    are all issued, and nothing is thrown. *)
Theorem info_fields_independent provider contractAddress w :
  bind_failure provider (calls w) contractAddress info_abi = None ->
  let h := (calls w ++ [NewContract contractAddress info_abi])%list in
  exists info,
    getNFTContractInfo provider contractAddress w =
    ({| calls := h ++ [Name contractAddress; Symbol contractAddress;
                       TotalSupply contractAddress];
        console := console w |},
     Normal info) /\
    mirrors (name info) (outcome (name_ provider h contractAddress)) /\
    mirrors (symbol info)
      (outcome (symbol_ provider (h ++ [Name contractAddress]) contractAddress)) /\
    mirrors (totalSupply info)
      (outcome (totalSupply_ provider
                  (h ++ [Name contractAddress; Symbol contractAddress])
                  contractAddress)).
Proof.
  intros Hbind h. subst h.
  unfold getNFTContractInfo, try_catch. unfold bind at 1.
  rewrite new_Contract_run, Hbind.
  run_js. run_js. unfold issued. cbn [target calls console].
  rewrite <- !app_assoc. cbn [app].
  eexists. split; [reflexivity |].
  cbn [name symbol totalSupply].
  repeat split;
    match goal with
    | |- mirrors _ (outcome ?p) => destruct (outcome p); reflexivity
    end.
Qed.

Lemma info_fields_independent_witness :
  exists info,
    getNFTContractInfo Examples.flaky Examples.address Examples.fresh =
    ({| calls := [ NewContract Examples.address info_abi;
                   Name Examples.address; Symbol Examples.address;
                   TotalSupply Examples.address ];
        console := [] |},
     Normal info) /\
    mirrors (name info) (Fulfilled "Apes") /\
    mirrors (symbol info) (Rejected Examples.revert) /\
    mirrors (totalSupply info) (Fulfilled 10000%Z).
Proof.
  apply (info_fields_independent Examples.flaky Examples.address Examples.fresh).
  reflexivity.
Defined.

(** C10: when the contract constructor throws, the result has all three
    fields absent; no read call is issued and nothing is thrown (the
    error is logged). *)
Theorem info_empty_when_binding_throws provider contractAddress w e :
  bind_failure provider (calls w) contractAddress info_abi = Some e ->
  getNFTContractInfo provider contractAddress w =
  ({| calls := calls w ++ [NewContract contractAddress info_abi];
      console := console w ++ [("Error getting NFT contract info:", e)] |},
   Normal {| name := None; symbol := None; totalSupply := None |}).
Proof.
  intros Hbind.
  unfold getNFTContractInfo, try_catch. unfold bind at 1.
  rewrite new_Contract_run, Hbind.
  reflexivity.
Qed.

Lemma info_empty_when_binding_throws_witness :
  getNFTContractInfo Examples.cannot_bind Examples.ens_name Examples.fresh =
  ({| calls := [NewContract Examples.ens_name info_abi];
      console := [("Error getting NFT contract info:",
                   ErrorObj "unsupported operation")] |},
   Normal {| name := None; symbol := None; totalSupply := None |}).
Proof.
  apply (info_empty_when_binding_throws Examples.cannot_bind Examples.ens_name
           Examples.fresh (ErrorObj "unsupported operation")).
  reflexivity.
Defined.

(** ** Claims about detectMintFunction *)

(** C3, as the code has it: the answer is decided by the constructor call
    of the first candidate alone.  If it returns, the lookup in the
    one-line interface finds the candidate and the function answers
    ['function mint(uint256)'] after that single call; if it throws, the
    outer handler logs the error and the answer is [null]. *)
Theorem detect_first_candidate_or_null provider contractAddress w :
  detectMintFunction provider contractAddress w =
  match bind_failure provider (calls w) contractAddress ["function mint(uint256)"] with
  | None =>
      ({| calls := calls w ++ [NewContract contractAddress ["function mint(uint256)"]];
          console := console w |},
       Normal (Some "function mint(uint256)"))
  | Some e =>
      ({| calls := calls w ++ [NewContract contractAddress ["function mint(uint256)"]];
          console := console w ++ [("Error detecting mint function:", e)] |},
       Normal None)
  end.
Proof.
  unfold detectMintFunction, mintFunctions, try_catch.
  cbn [detect_loop]. unfold bind at 1.
  rewrite new_Contract_run.
  destruct (bind_failure provider (calls w) contractAddress ["function mint(uint256)"]);
    reflexivity.
Qed.

(** C3 as stated fails: given a name instead of an address, with a
    provider that cannot resolve names, the contract constructor throws
    and the answer is [null]. *)
Lemma detect_null_when_binding_throws :
  snd (detectMintFunction Examples.cannot_bind Examples.ens_name Examples.fresh)
  = Normal None /\
  snd (detectMintFunction Examples.cannot_bind Examples.ens_name Examples.fresh)
  <> Normal (Some "function mint(uint256)").
Proof. split; [reflexivity | discriminate]. Qed.

(** C2 does not hold of the code: at an address where nothing is deployed
    (empty bytecode, every contract call reverts), so that none of the
    six candidates exists there, the answer is still the first candidate,
    and the only call made is the constructor's. *)
Theorem detect_mint_on_empty_address :
  detectMintFunction Examples.nothing_deployed Examples.address Examples.fresh =
  ({| calls := [NewContract Examples.address ["function mint(uint256)"]];
      console := [] |},
   Normal (Some "function mint(uint256)")).
Proof. reflexivity. Qed.

(** ** Runs in the settled model *)

(** As long as every promise settles and every thrown value can be
    printed, each of the three functions completes normally. *)
Lemma settled_runs_complete isAddress provider contractAddress w :
  (exists w' result,
     validateNFTContract isAddress provider contractAddress w = (w', Normal result)) /\
  (exists w' info,
     getNFTContractInfo provider contractAddress w = (w', Normal info)) /\
  (exists w' signature,
     detectMintFunction provider contractAddress w = (w', Normal signature)).
Proof.
  repeat split.
  - unfold validateNFTContract. apply try_catch_normal.
    intros e w1. apply log_and_return_normal.
  - unfold getNFTContractInfo. apply try_catch_normal.
    intros e w1. apply log_and_return_normal.
  - unfold detectMintFunction. apply try_catch_normal.
    intros e w1. apply log_and_return_normal.
Qed.


(** ** validateNFTContract, step by step *)

Lemma guard_passes isAddress contractAddress :
  well_formed isAddress contractAddress ->
  String.eqb contractAddress "" || negb (isAddress contractAddress) = false.
Proof. intros [Hne Hok]. apply wellformed_guard; assumption. Qed.

(** ** The deployment check *)

(** X1: when the bytecode query is rejected before the timer, the result
    is invalid with the network reason; the error is logged and no
    further call is issued. *)
Theorem validate_network_failure isAddress provider contractAddress w e :
  well_formed isAddress contractAddress ->
  (settles_after (getCode provider (calls w) contractAddress) < 10000)%N ->
  outcome (getCode provider (calls w) contractAddress) = Rejected e ->
  validateNFTContract isAddress provider contractAddress w =
  ({| calls := calls w ++ [GetCode contractAddress];
      console := console w ++ [("Error checking contract code:", e)] |},
   Normal network_issues).
Proof.
  intros Hwf Hfast Hrej.
  rewrite validate_run, (guard_passes _ _ Hwf). cbv zeta.
  destruct (N.leb_spec (settles_after (getCode provider (calls w) contractAddress)) 10000);
    [| lia].
  rewrite Hrej. reflexivity.
Qed.

Lemma validate_network_failure_witness :
  validateNFTContract Examples.isAddress Examples.node_down
    Examples.address Examples.fresh =
  ({| calls := [GetCode Examples.address];
      console := [("Error checking contract code:", ErrorObj "connect ECONNREFUSED")] |},
   Normal network_issues).
Proof.
  apply (validate_network_failure Examples.isAddress Examples.node_down
           Examples.address Examples.fresh).
  - split; [discriminate | reflexivity].
  - reflexivity.
  - reflexivity.
Defined.

(** X2: when the bytecode query takes longer than the ten seconds, the
    timer wins the race whatever the query would have answered: the
    result is invalid with the network reason, the timeout error is
    logged, and the contract is never bound or probed. *)
Theorem validate_timeout isAddress provider contractAddress w :
  well_formed isAddress contractAddress ->
  (10000 < settles_after (getCode provider (calls w) contractAddress))%N ->
  validateNFTContract isAddress provider contractAddress w =
  ({| calls := calls w ++ [GetCode contractAddress];
      console := console w ++ [("Error checking contract code:",
                                ErrorObj "Timeout checking contract code")] |},
   Normal network_issues).
Proof.
  intros Hwf Hslow.
  rewrite validate_run, (guard_passes _ _ Hwf). cbv zeta.
  destruct (N.leb_spec (settles_after (getCode provider (calls w) contractAddress)) 10000);
    [lia | reflexivity].
Qed.

Lemma validate_timeout_witness :
  validateNFTContract Examples.isAddress Examples.slow_node
    Examples.address Examples.fresh =
  ({| calls := [GetCode Examples.address];
      console := [("Error checking contract code:",
                   ErrorObj "Timeout checking contract code")] |},
   Normal network_issues).
Proof.
  apply (validate_timeout Examples.isAddress Examples.slow_node
           Examples.address Examples.fresh).
  - split; [discriminate | reflexivity].
  - reflexivity.
Defined.

(** X3: when the address is deployed but the contract constructor
    throws, the outer handler answers: invalid, with the reason
    ["Validation error: "] followed by the error's text; the error is
    logged and no probe is issued. *)
Theorem validate_binding_throws isAddress provider contractAddress w code e :
  well_formed isAddress contractAddress ->
  (settles_after (getCode provider (calls w) contractAddress) < 10000)%N ->
  outcome (getCode provider (calls w) contractAddress) = Fulfilled code ->
  code <> "0x" ->
  bind_failure provider (calls w ++ [GetCode contractAddress]) contractAddress nft_abi
  = Some e ->
  validateNFTContract isAddress provider contractAddress w =
  ({| calls := calls w ++ [GetCode contractAddress; NewContract contractAddress nft_abi];
      console := console w ++ [("Error validating NFT contract:", e)] |},
   Normal {| valid := false;
             reason := Some ("Validation error: " ++ error_text e) |}).
Proof.
  intros Hwf Hfast Hcode Hdeployed Hbind.
  rewrite validate_run, (guard_passes _ _ Hwf). cbv zeta.
  destruct (N.leb_spec (settles_after (getCode provider (calls w) contractAddress)) 10000);
    [| lia].
  rewrite Hcode.
  destruct (String.eqb_spec code "0x"); [contradiction |].
  change (calls (issued (GetCode contractAddress) w))
    with (calls w ++ [GetCode contractAddress])%list.
  rewrite Hbind. unfold after_binding, logged, issued. cbn [calls console].
  rewrite <- app_assoc. reflexivity.
Qed.

Lemma validate_binding_throws_witness :
  validateNFTContract Examples.isAddress Examples.cannot_bind
    Examples.unprefixed Examples.fresh =
  ({| calls := [GetCode Examples.unprefixed; NewContract Examples.unprefixed nft_abi];
      console := [("Error validating NFT contract:", ErrorObj "unsupported operation")] |},
   Normal {| valid := false;
             reason := Some "Validation error: unsupported operation" |}).
Proof.
  apply (validate_binding_throws Examples.isAddress Examples.cannot_bind
           Examples.unprefixed Examples.fresh "0x6080" (ErrorObj "unsupported operation")).
  - split; [discriminate | reflexivity].
  - reflexivity.
  - reflexivity.
  - discriminate.
  - reflexivity.
Defined.

(** ** Strings *)

Lemma prefix_nil s : String.prefix "" s = true.
Proof. destruct s; reflexivity. Qed.

Lemma prefix_append p s : String.prefix p (p ++ s) = true.
Proof.
  induction p as [| a p IH]; cbn.
  - apply prefix_nil.
  - destruct (ascii_dec a a) as [_ | Hne]; [exact IH | contradiction].
Qed.

Lemma prefix_inv p : forall s,
  String.prefix p s = true -> exists rest, s = p ++ rest.
Proof.
  induction p as [| a p IH]; intros s H.
  - exists s. reflexivity.
  - destruct s as [| b s]; cbn in H; [discriminate |].
    destruct (ascii_dec a b) as [<- | _]; [| discriminate].
    destruct (IH _ H) as [rest ->]. exists rest. reflexivity.
Qed.

Lemma includes_unfold s pat :
  JsString.includes s pat =
  if String.prefix pat s then true
  else match s with
       | EmptyString => false
       | String _ s' => JsString.includes s' pat
       end.
Proof. destruct s; reflexivity. Qed.

Lemma includes_contains s pat :
  JsString.includes s pat = true <-> contains s pat.
Proof.
  split.
  - induction s as [| c s IH]; rewrite includes_unfold;
      destruct (String.prefix pat _) eqn:Hp; intros H.
    + destruct (prefix_inv _ _ Hp) as [rest ->]. exists "", rest. reflexivity.
    + discriminate.
    + destruct (prefix_inv _ _ Hp) as [rest ->]. exists "", rest. reflexivity.
    + destruct (IH H) as (before & after & ->).
      exists (String c before), after. reflexivity.
  - intros (before & after & ->).
    induction before as [| c before IH]; rewrite includes_unfold.
    + cbn [append]. rewrite prefix_append. reflexivity.
    + destruct (String.prefix pat _); [reflexivity | exact IH].
Qed.

Lemma split_nonempty s sep : JsString.split s sep <> [].
Proof.
  destruct s as [| c s]; cbn; [discriminate |].
  destruct (Ascii.eqb c sep); [discriminate |].
  destruct (JsString.split s sep); discriminate.
Qed.

(** Splitting at the first separator. *)
Lemma split_at_first head sep tail :
  JsString.includes head (String sep "") = false ->
  JsString.split (head ++ String sep tail) sep = head :: JsString.split tail sep.
Proof.
  induction head as [| c head IH]; intros Hfree.
  - cbn. rewrite Ascii.eqb_refl. reflexivity.
  - rewrite includes_unfold in Hfree. cbn in Hfree.
    destruct (ascii_dec sep c) as [<- | Hne].
    + rewrite prefix_nil in Hfree. discriminate.
    + cbn. destruct (Ascii.eqb_spec c sep) as [-> | _]; [contradiction |].
      rewrite (IH Hfree). reflexivity.
Qed.

(** ** The bytecode scan *)

(** With no signal from the probes and the fallback calls, the heuristics
    come down to the second bytecode query. *)
Lemma heuristics_scan provider contractAddress w :
  no_signal provider contractAddress w ->
  nft_heuristics provider contractAddress (nft_contract contractAddress)
    (after_binding contractAddress w) =
  ({| calls := calls w ++ validate_calls contractAddress; console := console w |},
   match outcome (getCode provider (scan_history contractAddress w) contractAddress) with
   | Fulfilled bytecode =>
       Normal (if JsString.includes bytecode "Transfer("
                  || JsString.includes bytecode "5RANSFERE"
               then transfer_events else not_an_nft)
   | Rejected e => Abrupt e
   end).
Proof.
  unfold no_signal, scan_history, validate_calls. cbv zeta. cbn [firstn].
  intros (H721 & H1155 & [eb Hb] & [eo Ho]).
  unfold nft_heuristics. run_js.
  do 2 settle;
    repeat match goal with b : bool |- _ => destruct b end;
    try congruence; cbn [orb]; run_js;
    (do 2 settle; try congruence; cbn [orb]; run_js;
     unfold after_binding, issued; cbn [calls console];
     rewrite <- !app_assoc; cbn [app];
     match goal with
     | |- context [match outcome ?p with _ => _ end] => destruct (outcome p)
     end;
     [ match goal with
       | |- context [if ?c then _ else _] => destruct c
       end; reflexivity
     | reflexivity ]).
Qed.

(** X4: for a deployed contract that gives no signal (no probe answers
    true, both fallback calls are rejected), if the bytecode text that
    the second query returns holds ["Transfer("] or ["5RANSFERE"], the
    result is valid with the transfer-events reason, after all seven
    calls. *)
Theorem validate_transfer_text isAddress provider contractAddress w bytecode :
  reaches_heuristics isAddress provider contractAddress w ->
  no_signal provider contractAddress w ->
  outcome (getCode provider (scan_history contractAddress w) contractAddress)
  = Fulfilled bytecode ->
  contains bytecode "Transfer(" \/ contains bytecode "5RANSFERE" ->
  validateNFTContract isAddress provider contractAddress w =
  ({| calls := calls w ++ validate_calls contractAddress; console := console w |},
   Normal transfer_events).
Proof.
  intros Hreach Hquiet Hcode Htext.
  rewrite (validate_after_binding _ _ _ _ Hreach).
  unfold try_catch. rewrite (heuristics_scan _ _ _ Hquiet), Hcode.
  assert (JsString.includes bytecode "Transfer("
          || JsString.includes bytecode "5RANSFERE" = true) as ->.
  { apply orb_true_iff.
    destruct Htext as [H | H]; [left | right]; apply includes_contains; exact H. }
  reflexivity.
Qed.

Lemma validate_transfer_text_witness :
  validateNFTContract Examples.isAddress (Examples.bare_code "0x60Transfer(80")
    Examples.address Examples.fresh =
  ({| calls := validate_calls Examples.address; console := [] |},
   Normal transfer_events).
Proof.
  apply (validate_transfer_text Examples.isAddress (Examples.bare_code "0x60Transfer(80")
           Examples.address Examples.fresh "0x60Transfer(80").
  - repeat split; try reflexivity; try discriminate.
    exists "0x60Transfer(80". split; [reflexivity | discriminate].
  - repeat split; try discriminate; exists Examples.revert; reflexivity.
  - reflexivity.
  - left. exists "0x60", "80". reflexivity.
Defined.

(** X5: for a deployed contract that gives no signal, if the bytecode
    text holds neither fragment, the result is invalid with the
    not-an-NFT reason. *)
Theorem validate_not_an_nft isAddress provider contractAddress w bytecode :
  reaches_heuristics isAddress provider contractAddress w ->
  no_signal provider contractAddress w ->
  outcome (getCode provider (scan_history contractAddress w) contractAddress)
  = Fulfilled bytecode ->
  ~ contains bytecode "Transfer(" ->
  ~ contains bytecode "5RANSFERE" ->
  validateNFTContract isAddress provider contractAddress w =
  ({| calls := calls w ++ validate_calls contractAddress; console := console w |},
   Normal not_an_nft).
Proof.
  intros Hreach Hquiet Hcode Hno1 Hno2.
  rewrite (validate_after_binding _ _ _ _ Hreach).
  unfold try_catch. rewrite (heuristics_scan _ _ _ Hquiet), Hcode.
  destruct (JsString.includes bytecode "Transfer(") eqn:H1;
    [exfalso; apply Hno1, includes_contains, H1 |].
  destruct (JsString.includes bytecode "5RANSFERE") eqn:H2;
    [exfalso; apply Hno2, includes_contains, H2 |].
  reflexivity.
Qed.

Lemma validate_not_an_nft_witness :
  validateNFTContract Examples.isAddress (Examples.bare_code "0x6080")
    Examples.address Examples.fresh =
  ({| calls := validate_calls Examples.address; console := [] |},
   Normal not_an_nft).
Proof.
  apply (validate_not_an_nft Examples.isAddress (Examples.bare_code "0x6080")
           Examples.address Examples.fresh "0x6080").
  - repeat split; try reflexivity; try discriminate.
    exists "0x6080". split; [reflexivity | discriminate].
  - repeat split; try discriminate; exists Examples.revert; reflexivity.
  - reflexivity.
  - intros H. apply includes_contains in H. discriminate H.
  - intros H. apply includes_contains in H. discriminate H.
Defined.

(** ** validateNFTContract over all runs *)

(** Every run of [validateNFTContract], classified: how many calls of
    the fixed sequence it issued, what it logged, what it answered. *)
Lemma validate_cases isAddress provider contractAddress w :
  exists w' r n log,
    validateNFTContract isAddress provider contractAddress w = (w', Normal r) /\
    calls w' = (calls w ++ firstn n (validate_calls contractAddress))%list /\
    console w' = (console w ++ log)%list /\
    In n [0; 1; 2; 4; 6; 7]%nat /\
    ((log = [] /\
      (r = {| valid := false; reason := Some "Invalid Ethereum address format" |} \/
       r = {| valid := false; reason := Some "Contract not deployed at this address" |} \/
       r = valid_unqualified \/ r = transfer_events \/ r = not_an_nft)) \/
     (exists line e,
        log = [(line, e)] /\
        (r = network_issues \/
         r = {| valid := false;
                reason := Some ("Validation error: " ++ error_text e) |}))).
Proof.
  rewrite validate_run. cbv zeta.
  destruct (String.eqb contractAddress "" || negb (isAddress contractAddress));
    [close_case |].
  destruct (settles_after (getCode provider (calls w) contractAddress) <=? 10000)%N;
    [| close_case].
  destruct (outcome (getCode provider (calls w) contractAddress)) as [code | e];
    [| close_case].
  destruct (String.eqb code "0x"); [close_case |].
  destruct (bind_failure provider (calls (issued (GetCode contractAddress) w))
              contractAddress nft_abi); [close_case |].
  unfold try_catch, nft_heuristics. run_js.
  do 2 settle;
    repeat match goal with b : bool |- _ => destruct b end;
    cbn [orb]; try close_case; run_js;
    do 2 settle; cbn [orb]; try close_case; run_js;
    settle; try close_case;
    match goal with
    | |- context [if ?c then _ else _] => destruct c
    end; close_case.
Qed.

(** X6: every answer with [valid: false] carries a reason, and an answer
    with [valid: true] carries either no reason or the transfer-events
    one. *)
Theorem validate_reason_policy isAddress provider contractAddress w :
  exists w' r,
    validateNFTContract isAddress provider contractAddress w = (w', Normal r) /\
    (valid r = false -> exists text, reason r = Some text) /\
    (valid r = true ->
     reason r = None \/
     reason r = Some "Contract appears to implement transfer events").
Proof.
  destruct (validate_cases isAddress provider contractAddress w)
    as (w' & r & n & log & Hrun & _ & _ & _ & Hr).
  exists w', r. split; [exact Hrun |].
  destruct Hr as [[_ [-> | [-> | [-> | [-> | ->]]]]] | (line & e & _ & [-> | ->])];
    cbn; split; intros H; try discriminate H; eauto.
Qed.



(** X9: when a probe answers true the run is exactly four calls long:
    both probes are issued whatever the first one answers, and neither
    fallback call nor the second bytecode query follows; nothing is
    logged. *)
Theorem validate_probes_both_issued isAddress provider contractAddress w :
  reaches_heuristics isAddress provider contractAddress w ->
  let h := calls (after_binding contractAddress w) in
  outcome (supportsInterface provider h contractAddress ERC721_id) = Fulfilled true \/
  outcome (supportsInterface provider (h ++ [SupportsInterface contractAddress ERC721_id])
             contractAddress ERC1155_id) = Fulfilled true ->
  validateNFTContract isAddress provider contractAddress w =
  ({| calls := calls w ++ firstn 4 (validate_calls contractAddress);
      console := console w |},
   Normal valid_unqualified).
Proof.
  intros Hreach h Hprobe. subst h.
  rewrite (validate_after_binding _ _ _ _ Hreach).
  unfold try_catch, nft_heuristics. run_js.
  do 2 settle;
    repeat match goal with b : bool |- _ => destruct b end;
    cbn [orb];
    try (unfold after_binding, issued; cbn [calls console firstn validate_calls];
         rewrite <- !app_assoc; reflexivity);
    destruct Hprobe as [Hp | Hp]; congruence.
Qed.

Lemma validate_probes_both_issued_witness :
  validateNFTContract Examples.isAddress Examples.erc1155_only
    Examples.address Examples.fresh =
  ({| calls := [ GetCode Examples.address;
                 NewContract Examples.address nft_abi;
                 SupportsInterface Examples.address ERC721_id;
                 SupportsInterface Examples.address ERC1155_id ];
      console := [] |},
   Normal valid_unqualified).
Proof.
  apply (validate_probes_both_issued Examples.isAddress Examples.erc1155_only
           Examples.address Examples.fresh).
  - repeat split; try reflexivity; try discriminate.
    exists "0x6080". split; [reflexivity | discriminate].
  - right. reflexivity.
Defined.



(** ** The name of a candidate *)

(** X11: [functionName] recovers the name of a signature: for a name
    without an opening parenthesis, whatever follows the parenthesis,
    [func.split('(')[0].replace('function ', '')] is that name. *)
Theorem functionName_of_signature name args :
  JsString.includes name "(" = false ->
  functionName ("function " ++ name ++ String "(" args) = name.
Proof.
  intros Hfree. unfold functionName.
  change ("function " ++ name ++ String "(" args)
    with (("function " ++ name) ++ String "(" args).
  rewrite split_at_first.
  - cbn. rewrite prefix_nil. reflexivity.
  - cbn. exact Hfree.
Qed.

Lemma functionName_of_signature_witness :
  functionName "function safeMint(address,uint256) payable" = "safeMint".
Proof.
  apply (functionName_of_signature "safeMint" "address,uint256) payable").
  reflexivity.
Defined.

(** ** The permissive answer *)

(** X12: for a deployed contract that gives no signal, if the second
    bytecode query is rejected, that rejection is swallowed: the answer
    is the unqualified [{ valid: true }], after all seven calls, and
    nothing is logged. *)
Theorem validate_failed_scan_is_valid isAddress provider contractAddress w e :
  reaches_heuristics isAddress provider contractAddress w ->
  no_signal provider contractAddress w ->
  outcome (getCode provider (scan_history contractAddress w) contractAddress)
  = Rejected e ->
  validateNFTContract isAddress provider contractAddress w =
  ({| calls := calls w ++ validate_calls contractAddress; console := console w |},
   Normal valid_unqualified).
Proof.
  intros Hreach Hquiet Hrej.
  rewrite (validate_after_binding _ _ _ _ Hreach).
  unfold try_catch. rewrite (heuristics_scan _ _ _ Hquiet), Hrej. reflexivity.
Qed.

Lemma validate_failed_scan_is_valid_witness :
  validateNFTContract Examples.isAddress Examples.flaky
    Examples.address Examples.fresh =
  ({| calls := validate_calls Examples.address; console := [] |},
   Normal valid_unqualified).
Proof.
  apply (validate_failed_scan_is_valid Examples.isAddress Examples.flaky
           Examples.address Examples.fresh (NonError "socket hang up")).
  - repeat split; try reflexivity; try discriminate.
    exists "0x6080". split; [reflexivity | discriminate].
  - repeat split; try discriminate; exists Examples.revert; reflexivity.
  - reflexivity.
Defined.

(** ** The settled model inside the open world *)

Lemma sim_ret {A B} (f : A -> B) a : simulates f (ret a) (Open.ret (f a)).
Proof. intros w. reflexivity. Qed.

Lemma sim_bind {A A' B B'} (f : A -> A') (g : B -> B') m m' k k' :
  simulates f m m' ->
  (forall a, simulates g (k a) (k' (f a))) ->
  simulates g (bind m k) (Open.bind m' k').
Proof.
  intros Hm Hk w. unfold bind, Open.bind. rewrite Hm.
  unfold open_run_with at 1.
  destruct (m w) as [w1 [a | e]]; cbn [fst snd].
  - apply Hk.
  - reflexivity.
Qed.

Lemma sim_try_catch {A B} (f : A -> B) body body' handler handler' :
  simulates f body body' ->
  (forall e, simulates f (handler e) (handler' (Open.Printable e))) ->
  simulates f (try_catch body handler) (Open.try_catch body' handler').
Proof.
  intros Hb Hh w. unfold try_catch, Open.try_catch. rewrite Hb.
  unfold open_run_with at 1.
  destruct (body w) as [w1 [a | e]]; cbn [fst snd].
  - reflexivity.
  - apply Hh.
Qed.

Lemma sim_await {A} (p : Promise A) :
  simulates (fun a => a) (await p) (Open.await (open_promise p)).
Proof.
  intros w. unfold await, Open.await, open_promise. cbn [Open.outcome].
  destruct (outcome p); reflexivity.
Qed.

Lemma sim_console_error line e :
  simulates (fun u => u) (console_error line e)
    (Open.console_error line (Open.Printable e)).
Proof.
  intros w. unfold console_error, Open.console_error, open_run_with, open_world,
    logged, Open.logged.
  cbn [fst snd calls console Open.calls Open.console].
  rewrite map_app. reflexivity.
Qed.

Lemma sim_lookup {A} (c : completion A) :
  simulates (fun a => a) (lift c) (Open.lift_lookup c).
Proof. intros w. destruct c; reflexivity. Qed.

Lemma open_catch {A} (p : Promise A) (a : A) :
  Open.catch_ (open_promise p) (fun _ => a) =
  open_promise (JsPromise.catch_ p (fun _ => a)).
Proof.
  unfold Open.catch_, JsPromise.catch_, open_promise. cbn.
  destruct (outcome p); reflexivity.
Qed.

Lemma open_then {A B} (p : Promise A) (f : A -> B) :
  Open.then_ (open_promise p) f = open_promise (JsPromise.then_ p f).
Proof.
  unfold Open.then_, JsPromise.then_, open_promise. cbn.
  destruct (outcome p); reflexivity.
Qed.

Lemma open_race_timer {A} (p : Promise A) ms e :
  Open.race (open_promise p) (Open.reject_after ms (Open.Printable e)) =
  open_promise (JsPromise.race p (JsPromise.reject_after ms e)).
Proof.
  unfold Open.race, JsPromise.race, Open.reject_after, JsPromise.reject_after,
    open_promise.
  destruct p as [t o]. cbn. destruct o; destruct (t <=? ms)%N; reflexivity.
Qed.

Lemma sim_allSettled3 {A B C} (p : Promise A) (q : Promise B) (r : Promise C) :
  simulates
    (fun results : settled A * settled B * settled C =>
       let '(a, b, c) := results in (open_settled a, open_settled b, open_settled c))
    (await (JsPromise.allSettled3 p q r))
    (Open.await (Open.allSettled3 (open_promise p) (open_promise q) (open_promise r))).
Proof.
  intros w. unfold await, Open.await, JsPromise.allSettled3, Open.allSettled3,
    open_promise.
  cbn. destruct (outcome p), (outcome q), (outcome r); reflexivity.
Qed.

Lemma open_value_or_undefined {A} (s : settled A) :
  Open.value_or_undefined (open_settled s) = JsPromise.value_or_undefined s.
Proof. destruct s; reflexivity. Qed.

Section Simulation.

Variable provider : Provider.

Lemma sim_getCode a :
  simulates open_promise (provider_getCode provider a)
    (Open.provider_getCode (open_provider provider) a).
Proof. intros w. reflexivity. Qed.

Lemma sim_new_Contract a abi :
  simulates (fun c => c) (new_Contract provider a abi)
    (Open.new_Contract (open_provider provider) a abi).
Proof.
  intros w. unfold new_Contract, Open.new_Contract, open_run_with.
  cbn [fst snd open_provider Open.bind_failure open_world Open.calls].
  destruct (bind_failure provider (calls w) a abi); reflexivity.
Qed.

Lemma sim_supportsInterface c id :
  simulates open_promise (contract_supportsInterface provider c id)
    (Open.contract_supportsInterface (open_provider provider) c id).
Proof. intros w. reflexivity. Qed.

Lemma sim_balanceOf c owner :
  simulates open_promise (contract_balanceOf provider c owner)
    (Open.contract_balanceOf (open_provider provider) c owner).
Proof. intros w. reflexivity. Qed.

Lemma sim_ownerOf c tokenId :
  simulates open_promise (contract_ownerOf provider c tokenId)
    (Open.contract_ownerOf (open_provider provider) c tokenId).
Proof. intros w. reflexivity. Qed.

Lemma sim_name c :
  simulates open_promise (contract_name provider c)
    (Open.contract_name (open_provider provider) c).
Proof. intros w. reflexivity. Qed.

Lemma sim_symbol c :
  simulates open_promise (contract_symbol provider c)
    (Open.contract_symbol (open_provider provider) c).
Proof. intros w. reflexivity. Qed.

Lemma sim_totalSupply c :
  simulates open_promise (contract_totalSupply provider c)
    (Open.contract_totalSupply (open_provider provider) c).
Proof. intros w. reflexivity. Qed.

Lemma sim_check_deployed a :
  simulates (fun r => r) (check_deployed provider a)
    (Open.check_deployed (open_provider provider) a).
Proof.
  unfold check_deployed, Open.check_deployed.
  apply sim_try_catch.
  - eapply sim_bind; [apply sim_getCode |]. intros p.
    rewrite open_race_timer.
    eapply sim_bind; [apply sim_await |]. intros code.
    destruct (String.eqb code "0x"); apply (sim_ret (fun r => r)).
  - intros e. eapply sim_bind; [apply sim_console_error |]. intros _.
    apply (sim_ret (fun r => r)).
Qed.

Lemma sim_nft_heuristics a c :
  simulates (fun r => r) (nft_heuristics provider a c)
    (Open.nft_heuristics (open_provider provider) a c).
Proof.
  unfold nft_heuristics, Open.nft_heuristics.
  eapply sim_bind; [apply sim_supportsInterface |]. intros p721.
  rewrite open_catch.
  eapply sim_bind; [apply sim_await |]. intros isERC721.
  eapply sim_bind; [apply sim_supportsInterface |]. intros p1155.
  rewrite open_catch.
  eapply sim_bind; [apply sim_await |]. intros isERC1155.
  destruct (isERC721 || isERC1155); [apply (sim_ret (fun r => r)) |].
  eapply sim_bind; [apply sim_balanceOf |]. intros pb.
  rewrite open_then, open_catch.
  eapply sim_bind; [apply sim_await |]. intros hasBalanceOf.
  eapply sim_bind; [apply sim_ownerOf |]. intros po.
  rewrite open_then, open_catch.
  eapply sim_bind; [apply sim_await |]. intros hasOwnerOf.
  destruct (hasBalanceOf || hasOwnerOf); [apply (sim_ret (fun r => r)) |].
  eapply sim_bind; [apply sim_getCode |]. intros pc.
  eapply sim_bind; [apply sim_await |]. intros bytecode.
  destruct (JsString.includes bytecode "Transfer("
            || JsString.includes bytecode "5RANSFERE");
    apply (sim_ret (fun r => r)).
Qed.

Lemma sim_validateNFTContract isAddress a :
  simulates (fun r => r) (validateNFTContract isAddress provider a)
    (Open.validateNFTContract isAddress (open_provider provider) a).
Proof.
  unfold validateNFTContract, Open.validateNFTContract.
  apply sim_try_catch.
  - destruct (String.eqb a "" || negb (isAddress a)); [apply (sim_ret (fun r => r)) |].
    eapply sim_bind; [apply sim_check_deployed |]. intros [result |].
    + apply (sim_ret (fun r => r)).
    + eapply sim_bind; [apply sim_new_Contract |]. intros contract.
      apply sim_try_catch; [apply sim_nft_heuristics |].
      intros _. apply (sim_ret (fun r => r)).
  - intros e. eapply sim_bind; [apply sim_console_error |]. intros _.
    apply (sim_ret (fun r => r)).
Qed.

Lemma sim_getNFTContractInfo a :
  simulates (fun r => r) (getNFTContractInfo provider a)
    (Open.getNFTContractInfo (open_provider provider) a).
Proof.
  unfold getNFTContractInfo, Open.getNFTContractInfo.
  apply sim_try_catch.
  - eapply sim_bind; [apply sim_new_Contract |]. intros contract.
    eapply sim_bind; [apply sim_name |]. intros pn.
    eapply sim_bind; [apply sim_symbol |]. intros ps.
    eapply sim_bind; [apply sim_totalSupply |]. intros pt.
    eapply sim_bind; [apply sim_allSettled3 |]. intros [[n s] t].
    rewrite !open_value_or_undefined. apply (sim_ret (fun r => r)).
  - intros e. eapply sim_bind; [apply sim_console_error |]. intros _.
    apply (sim_ret (fun r => r)).
Qed.

Lemma sim_detect_loop a candidates :
  simulates (fun r => r) (detect_loop provider a candidates)
    (Open.detect_loop (open_provider provider) a candidates).
Proof.
  induction candidates as [| func rest IH]; cbn [detect_loop Open.detect_loop].
  - apply (sim_ret (fun r => r)).
  - eapply sim_bind; [apply sim_new_Contract |]. intros contract.
    eapply (sim_bind (fun r => r)).
    + apply sim_try_catch.
      * eapply sim_bind; [apply sim_lookup |]. intros [f |];
          apply (sim_ret (fun r => r)).
      * intros _. apply (sim_ret (fun r => r)).
    + intros [f |]; [apply (sim_ret (fun r => r)) | exact IH].
Qed.

Lemma sim_detectMintFunction a :
  simulates (fun r => r) (detectMintFunction provider a)
    (Open.detectMintFunction (open_provider provider) a).
Proof.
  unfold detectMintFunction, Open.detectMintFunction.
  apply sim_try_catch; [apply sim_detect_loop |].
  intros e. eapply sim_bind; [apply sim_console_error |]. intros _.
  apply (sim_ret (fun r => r)).
Qed.

End Simulation.

(** ** Answers in the open world *)

Lemma open_heuristics_completes provider contractAddress contract w :
  untimed_calls_settle provider ->
  In (GetCode contractAddress) (Open.calls w) ->
  exists w' e,
    Open.nft_heuristics provider contractAddress contract w = (w', e) /\
    e <> Open.Hung.
Proof.
  intros Hsettle Hqueried.
  unfold Open.nft_heuristics. run_open.
  do 2 (open_settle; try never_pends);
    repeat match goal with b : bool |- _ => destruct b end;
    cbn [orb]; try (do 2 eexists; split; [reflexivity | discriminate]); run_open;
    do 2 (open_settle; try never_pends); cbn [orb];
    try (do 2 eexists; split; [reflexivity | discriminate]); run_open;
    (open_settle; try never_pends);
    try match goal with
        | |- context [if ?c then _ else _] => destruct c
        end;
    do 2 eexists; split; try reflexivity; discriminate.
Qed.

Lemma open_detect_loop_completes provider contractAddress candidates w :
  exists w' e,
    Open.detect_loop provider contractAddress candidates w = (w', e) /\
    e <> Open.Hung.
Proof.
  revert w. induction candidates as [| func rest IH]; intros w;
    cbn [Open.detect_loop].
  - do 2 eexists. split; [reflexivity | discriminate].
  - unfold Open.try_catch. run_open.
    destruct (Open.bind_failure provider (Open.calls w) contractAddress [func]);
      [do 2 eexists; split; [reflexivity | discriminate] |].
    cbn [interface].
    destruct (getFunction (Interface_from [func]) (functionName func)) as [[f |] | e];
      try (do 2 eexists; split; [reflexivity | discriminate]);
      apply IH.
Qed.

Lemma open_check_deployed_completes provider contractAddress w :
  exists w' returned,
    Open.check_deployed provider contractAddress w = (w', Open.Done returned) /\
    Open.calls w' = (Open.calls w ++ [GetCode contractAddress])%list.
Proof.
  unfold Open.check_deployed, Open.try_catch. run_open.
  destruct (Open.getCode provider (Open.calls w) contractAddress) as [t [code | e |]];
    cbn [Open.outcome Open.settles_after];
    try destruct (t <=? 10000)%N; cbn [Open.outcome];
    try destruct (String.eqb code "0x");
    do 2 eexists; split; reflexivity.
Qed.

(** C1, as far as it holds.  [detectMintFunction] answers whatever the
    provider does.  [getNFTContractInfo] answers whenever the calls it
    awaits settle, and [validateNFTContract] whenever they settle (its
    first bytecode query may stay pending: the timer answers for it) and
    the error of the constructor, if any, can be printed.  An answer is
    a normal completion: no exception reaches the caller. *)
Theorem answers_when_calls_settle isAddress provider contractAddress w :
  (exists w' signature,
     Open.detectMintFunction provider contractAddress w = (w', Open.Done signature)) /\
  (untimed_calls_settle provider ->
   exists w' info,
     Open.getNFTContractInfo provider contractAddress w = (w', Open.Done info)) /\
  (untimed_calls_settle provider ->
   constructor_error_printable provider ->
   exists w' result,
     Open.validateNFTContract isAddress provider contractAddress w =
     (w', Open.Done result)).
Proof.
  split; [| split].
  - unfold Open.detectMintFunction, Open.try_catch.
    destruct (open_detect_loop_completes provider contractAddress mintFunctions w)
      as (w1 & [s | v |] & -> & Hrun).
    + do 2 eexists. reflexivity.
    + do 2 eexists. reflexivity.
    + contradiction.
  - intros Hsettle.
    unfold Open.getNFTContractInfo, Open.try_catch. run_open.
    destruct (Open.bind_failure provider (Open.calls w) contractAddress info_abi);
      [do 2 eexists; reflexivity |].
    cbn [target].
    do 3 (open_settle; try never_pends); do 2 eexists; reflexivity.
  - intros Hsettle Hprint.
    unfold Open.validateNFTContract.
    destruct (String.eqb contractAddress "" || negb (isAddress contractAddress));
      [do 2 eexists; reflexivity |].
    unfold Open.try_catch at 1. unfold Open.bind at 1.
    destruct (open_check_deployed_completes provider contractAddress w)
      as (w1 & returned & -> & Hcalls).
    destruct returned as [result |]; [do 2 eexists; reflexivity |].
    unfold Open.bind at 1, Open.new_Contract.
    destruct (Open.bind_failure provider (Open.calls w1) contractAddress nft_abi)
      as [[e |] |] eqn:Hbind.
    + do 2 eexists. reflexivity.
    + exfalso. exact (Hprint _ _ _ Hbind).
    + unfold Open.try_catch.
      destruct (open_heuristics_completes provider contractAddress
                  {| target := contractAddress; interface := Interface_from nft_abi |}
                  (Open.issued (NewContract contractAddress nft_abi) w1) Hsettle)
        as (w2 & [r | v |] & -> & Hrun).
      * cbn [Open.calls Open.issued]. rewrite Hcalls. in_log.
      * do 2 eexists. reflexivity.
      * do 2 eexists. reflexivity.
      * contradiction.
Qed.

Lemma answers_when_calls_settle_witness :
  (exists w' info,
     Open.getNFTContractInfo Examples.deaf_at_first Examples.address
       Examples.open_fresh = (w', Open.Done info)) /\
  (exists w' result,
     Open.validateNFTContract Examples.isAddress Examples.deaf_at_first
       Examples.address Examples.open_fresh = (w', Open.Done result)).
Proof.
  assert (untimed_calls_settle Examples.deaf_at_first) as Hsettle.
  { repeat split; intros; try discriminate.
    destruct h; [contradiction | discriminate]. }
  split.
  - apply (proj1 (proj2 (answers_when_calls_settle Examples.isAddress
                           Examples.deaf_at_first Examples.address
                           Examples.open_fresh))).
    exact Hsettle.
  - apply (proj2 (proj2 (answers_when_calls_settle Examples.isAddress
                           Examples.deaf_at_first Examples.address
                           Examples.open_fresh))).
    + exact Hsettle.
    + intros h a abi. discriminate.
Defined.

(** C1 as stated fails.  When the contract never answers a call,
    [validateNFTContract] stops at its first probe and
    [getNFTContractInfo] at its three reads: neither gives a result.
    And when resolving the target throws a value that cannot be printed,
    building the reason in the outer handler of [validateNFTContract]
    throws in its turn, and that exception reaches the caller. *)
Lemma no_answer_in_the_open_world :
  snd (Open.validateNFTContract Examples.isAddress Examples.mute_contract
         Examples.address Examples.open_fresh) = Open.Hung /\
  snd (Open.getNFTContractInfo Examples.mute_contract Examples.address
         Examples.open_fresh) = Open.Hung /\
  snd (Open.validateNFTContract Examples.isAddress Examples.odd_resolver
         Examples.unprefixed Examples.open_fresh) =
  Open.Threw (Open.Printable (ErrorObj "Cannot convert object to primitive value")).
Proof. repeat split; reflexivity. Qed.
